(** * Quiz Master: filter engine, session builder, grader and session state

    A shallow embedding of [quiz.py].  The helper functions
    ([get_topics_and_grades], [collect_questions_from_blocks],
    [normalize_answer]) and the three pieces of handler code (the Start Quiz
    button, the grading loop, the reset button) are written as Rocq
    functions over a model of the Python values that [json.load] produces.

    Modelling conventions.
    - A Python [str] is a [string] whose characters are the code points
      U+0000..U+00FF; [str.strip] and [str.lower] are given exactly on that
      range.
    - A JSON number is an integer ([VInt]); fractional numbers are not
      represented.
    - [None] is [VNone]; a Python [dict] with string keys is an association
      list searched from the front.
    - A block is a JSON object whose [questions] member, when present, is a
      list of JSON objects; every other member is an arbitrary value.
    - Exceptions are modelled by [option] ([None] is a raised [TypeError] or
      [IndexError], as said at each definition).
    - [random.sample] and [random.shuffle] draw from an explicit stream of
      raw random numbers. *)

From Stdlib Require Import List String Ascii ZArith Bool Arith Lia.
From Stdlib Require Import Permutation Sorted.
From Stdlib Require Import DecimalString.
From Stdlib Require DecimalFacts DecimalNat DecimalZ DecimalPos.
From Stdlib Require Import OrderedTypeEx.
Import ListNotations.

Open Scope string_scope.
Open Scope list_scope.

(* ================================================================= *)
(** ** Python values *)

#[warnings="-register-all"]
Inductive value : Type :=
| VNone
| VBool (b : bool)
| VInt (z : Z)
| VStr (s : string)
| VList (l : list value)
| VDict (d : list (string * value)).

Definition dict : Type := list (string * value).

Fixpoint dict_lookup (d : dict) (k : string) : option value :=
  match d with
  | [] => None
  | (k', v) :: d' => if String.eqb k' k then Some v else dict_lookup d' k
  end.

(** [k in d] *)
Definition dict_has (d : dict) (k : string) : bool :=
  match dict_lookup d k with Some _ => true | None => false end.

(** [d.get(k, dflt)] *)
Definition dict_get_default (d : dict) (k : string) (dflt : value) : value :=
  match dict_lookup d k with Some v => v | None => dflt end.

(** [d.get(k)] *)
Definition dict_get (d : dict) (k : string) : value :=
  dict_get_default d k VNone.

(** Numeric tower: [True == 1] and [False == 0]. *)
Definition num_of (v : value) : option Z :=
  match v with
  | VBool b => Some (if b then 1%Z else 0%Z)
  | VInt z => Some z
  | _ => None
  end.

(** Python's [==]. *)
Fixpoint py_eq (a b : value) : bool :=
  match a, b with
  | VNone, VNone => true
  | VStr s, VStr t => String.eqb s t
  | VList xs, VList ys =>
      (fix go (xs ys : list value) : bool :=
         match xs, ys with
         | [], [] => true
         | x :: xs', y :: ys' => py_eq x y && go xs' ys'
         | _, _ => false
         end) xs ys
  | VDict d, VDict e =>
      Nat.eqb (List.length d) (List.length e) &&
      (fix go (d : list (string * value)) : bool :=
         match d with
         | [] => true
         | (k, v) :: d' =>
             match dict_lookup e k with
             | Some w => py_eq v w
             | None => false
             end && go d'
         end) d
  | _, _ =>
      match num_of a, num_of b with
      | Some x, Some y => Z.eqb x y
      | _, _ => false
      end
  end.

(** [x in (a, b, ...)] *)
Definition py_in (x : value) (l : list value) : bool :=
  existsb (py_eq x) l.

(** Lists and dicts cannot be set members or dict keys. *)
Definition hashable (v : value) : bool :=
  match v with
  | VList _ | VDict _ => false
  | _ => true
  end.

(** Truth value of an object in a condition. *)
Definition truthy (v : value) : bool :=
  match v with
  | VNone => false
  | VBool b => b
  | VInt z => negb (Z.eqb z 0)
  | VStr s => negb (String.eqb s "")
  | VList l => match l with [] => false | _ => true end
  | VDict d => match d with [] => false | _ => true end
  end.

(* ================================================================= *)
(** ** Strings: [str.strip] and [str.lower] *)

(** Whitespace as [str.strip] sees it, below U+0100:
    TAB LF VT FF CR, FS GS RS US, SPACE, NEL and NBSP. *)
Definition is_space (c : ascii) : bool :=
  let n := nat_of_ascii c in
  (((9 <=? n) && (n <=? 13)) || ((28 <=? n) && (n <=? 32))
   || (n =? 133) || (n =? 160))%nat.

(** Lower-casing of one code point below U+0100: A-Z, and the Latin-1
    capitals U+00C0..U+00DE other than the multiplication sign. *)
Definition lower_char (c : ascii) : ascii :=
  let n := nat_of_ascii c in
  if (((65 <=? n) && (n <=? 90))
      || ((192 <=? n) && (n <=? 222) && negb (n =? 215)))%nat
  then ascii_of_nat (n + 32) else c.

Fixpoint lower (s : string) : string :=
  match s with
  | EmptyString => EmptyString
  | String c s' => String (lower_char c) (lower s')
  end.

Fixpoint lstrip (s : string) : string :=
  match s with
  | EmptyString => EmptyString
  | String c s' => if is_space c then lstrip s' else s
  end.

Fixpoint rstrip (s : string) : string :=
  match s with
  | EmptyString => EmptyString
  | String c s' =>
      match rstrip s' with
      | EmptyString => if is_space c then EmptyString else String c EmptyString
      | r => String c r
      end
  end.

Definition strip (s : string) : string := rstrip (lstrip s).

Fixpoint all_space (s : string) : bool :=
  match s with
  | EmptyString => true
  | String c s' => is_space c && all_space s'
  end.

(** The simple case swap of a code point below U+0100: a capital of
    [lower_char] and its small letter are exchanged; any other code point is
    left.  U+00B5, U+00DF and U+00FF are small letters without a capital
    below U+0100 and are left too: [str.upper] sends them to U+039C, ["SS"]
    and U+0178 (see [py_upper]), which [str.lower] does not send back. *)
Definition swap_case (c : ascii) : ascii :=
  let n := nat_of_ascii c in
  if (((65 <=? n) && (n <=? 90))
      || ((192 <=? n) && (n <=? 222) && negb (n =? 215)))%nat
  then ascii_of_nat (n + 32)
  else if (((97 <=? n) && (n <=? 122))
           || ((224 <=? n) && (n <=? 254) && negb (n =? 247)))%nat
  then ascii_of_nat (n - 32)
  else c.

(** [alter_case mask s]: [s] with the case of its [i]-th character swapped
    wherever [mask] holds [true] at [i]. *)
Fixpoint alter_case (mask : list bool) (s : string) {struct s} : string :=
  match s, mask with
  | EmptyString, _ => EmptyString
  | _, [] => s
  | String c s', true :: m => String (swap_case c) (alter_case m s')
  | String c s', false :: m => String c (alter_case m s')
  end.


(* ================================================================= *)
(** ** The grader *)

Section Grader.

(** [str(x)] of a list or a dict is [repr]-based; no function below looks
    inside it, so it is left as a parameter. *)
Variable container_str : value -> string.

(** [str(x)] *)
Definition py_str (v : value) : string :=
  match v with
  | VNone => "None"
  | VBool true => "True"
  | VBool false => "False"
  | VInt z => NilZero.string_of_int (Z.to_int z)
  | VStr s => s
  | VList _ | VDict _ => container_str v
  end.

Definition normalize_answer (ans : value) : string :=
  match ans with
  | VNone => ""
  | _ => lower (strip (py_str ans))
  end.

(** The body of the grading loop for one question [q] and the raw entry
    [user_raw] of [user_answers]: the value of [pass_mark]. *)
Definition pass_mark (q : dict) (user_raw : value) : bool :=
  let correct_raw := dict_get q "answer" in
  let correct := normalize_answer correct_raw in
  let user := normalize_answer user_raw in
  let q_type := dict_get q "type" in
  if py_in q_type [VStr "short_answer"; VStr "fill_blank"] then
    String.eqb user correct
  else if py_eq q_type (VStr "multiple_choice") then
    String.eqb (normalize_answer user_raw) correct
  else if py_eq q_type (VStr "true_false") then
    (String.eqb user "true" || String.eqb user "false")
    && String.eqb user correct
  else
    String.eqb user correct.

(** [for i, q in enumerate(questions)]: the marks in order and the score.
    [user_answers[i]] out of range raises [IndexError] ([None]). *)
Fixpoint grading_loop (questions : list dict) (user_answers : list value)
    (i : nat) (score : nat) : option (list bool * nat) :=
  match questions with
  | [] => Some ([], score)
  | q :: rest =>
      match nth_error user_answers i with
      | None => None
      | Some user_raw =>
          let m := pass_mark q user_raw in
          match grading_loop rest user_answers (S i)
                  (if m then S score else score) with
          | None => None
          | Some (marks, final) => Some (m :: marks, final)
          end
      end
  end.

Definition grade (questions : list dict) (user_answers : list value)
  : option (list bool * nat) :=
  grading_loop questions user_answers 0 0.

End Grader.


(* ================================================================= *)
(** ** The filter engine *)

(** A block of a subject file.  [b_fields] holds the members [subject],
    [topic], [grade], ...; [b_questions] is the [questions] member
    ([None] when the block has none). *)
Record block : Type := mk_block {
  b_fields : dict;
  b_questions : option (list dict)
}.

(** [b.get("questions", [])] *)
Definition block_questions (b : block) : list dict :=
  match b_questions b with Some qs => qs | None => [] end.

(** [<] on the objects a set can hold: numbers with numbers, strings with
    strings (by code point); any other pair raises [TypeError]. *)
Definition py_lt (a b : value) : option bool :=
  match num_of a, num_of b with
  | Some x, Some y => Some (Z.ltb x y)
  | _, _ =>
      match a, b with
      | VStr s, VStr t => Some (String.ltb s t)
      | _, _ => None
      end
  end.

(** [a < b] holds. *)
Definition value_lt (a b : value) : Prop := py_lt a b = Some true.

Definition is_str (v : value) : bool :=
  match v with VStr _ => true | _ => false end.

Definition is_num (v : value) : bool :=
  match num_of v with Some _ => true | None => false end.

(** No member of [s] equals a member before it. *)
Definition distinct_members (s : list value) : Prop :=
  ForallOrdPairs (fun e v => py_eq v e = false) s.

(** Adding one object to a set: unhashable objects raise [TypeError]; an
    object equal to a member leaves the set as it is. *)
Definition set_add (s : list value) (v : value) : option (list value) :=
  if hashable v then Some (if existsb (py_eq v) s then s else s ++ [v])
  else None.

(** A set comprehension over the objects [l].  The members are kept in the
    order they were first added; the order in which Python iterates a set is
    not specified, and [sorted], the only reader of these sets, returns the
    same list (or raises) for every order. *)
Definition py_set (l : list value) : option (list value) :=
  fold_left (fun acc v => match acc with
                          | Some s => set_add s v
                          | None => None
                          end) l (Some []).

(** One insertion of the stable sort: [x] goes before the first member it is
    smaller than; a comparison that raises ends the sort. *)
Fixpoint insert_sorted (x : value) (l : list value) : option (list value) :=
  match l with
  | [] => Some [x]
  | y :: l' =>
      match py_lt x y with
      | None => None
      | Some true => Some (x :: l)
      | Some false =>
          match insert_sorted x l' with
          | Some r => Some (y :: r)
          | None => None
          end
      end
  end.

(** [sorted(l)] *)
Definition py_sorted (l : list value) : option (list value) :=
  fold_left (fun acc x => match acc with
                          | Some s => insert_sorted x s
                          | None => None
                          end) l (Some []).

Definition topic_values (blocks : list block) : list value :=
  map (fun b => dict_get_default (b_fields b) "topic" (VStr "General")) blocks.

Definition grade_values (blocks : list block) : list value :=
  map (fun b => dict_get_default (b_fields b) "grade" VNone)
      (filter (fun b => dict_has (b_fields b) "grade") blocks).

Definition get_topics_and_grades (blocks : list block)
  : option (list value * list value) :=
  match py_set (topic_values blocks) with
  | None => None
  | Some ts =>
      match py_sorted ts with
      | None => None
      | Some topics =>
          match py_set (grade_values blocks) with
          | None => None
          | Some gs =>
              match py_sorted gs with
              | None => None
              | Some grades => Some (topics, grades)
              end
          end
      end
  end.

(** The data model's typing of the two members read here: a [topic], when
    present, is a string; the [grade]s that are present are all numbers or
    all strings. *)
Definition topics_are_strings (blocks : list block) : bool :=
  forallb (fun b => match dict_lookup (b_fields b) "topic" with
                    | Some v => is_str v
                    | None => true
                    end) blocks.

Definition grades_are_comparable (blocks : list block) : bool :=
  forallb is_num (grade_values blocks) || forallb is_str (grade_values blocks).

(** ["type" in q and "question" in q and "answer" in q] *)
Definition has_required_fields (q : dict) : bool :=
  dict_has q "type" && dict_has q "question" && dict_has q "answer".

Definition block_matches (b : block) (selected_topic selected_grade : value)
  : bool :=
  (py_in selected_topic [VNone; VStr "All"]
   || py_eq (dict_get (b_fields b) "topic") selected_topic)
  && (py_in selected_grade [VNone; VStr "All"]
      || py_eq (dict_get (b_fields b) "grade") selected_grade).

Definition collect_questions_from_blocks (blocks : list block)
    (selected_topic selected_grade : value) : list dict :=
  fold_left
    (fun out b =>
       if block_matches b selected_topic selected_grade then
         fold_left
           (fun out q => if has_required_fields q then out ++ [q] else out)
           (block_questions b) out
       else out)
    blocks [].

(** What extraction without filters is said to return: the questions that
    have the three required members, of every block, in block order and in
    source order within a block, duplicates kept. *)
Definition all_valid_questions (blocks : list block) : list dict :=
  flat_map (fun b => filter has_required_fields (block_questions b)) blocks.

(* ================================================================= *)
(** ** Randomness *)

(** The generator: the raw numbers still to be drawn (0 once exhausted). *)
Definition rng : Type := list nat.

Definition randbelow (n : nat) (g : rng) : nat * rng :=
  match g with
  | [] => (0, [])
  | x :: g' => (x mod n, g')
  end.

Section Random.

Context {A : Type}.

(** [l[i] = x] for [i] in range. *)
Fixpoint list_set (i : nat) (x : A) (l : list A) : list A :=
  match l, i with
  | [], _ => []
  | _ :: l', 0 => x :: l'
  | y :: l', S i' => y :: list_set i' x l'
  end.

(** The selection loop of [random.sample]: draw a position of the pool,
    take the item, move the last item of the pool into the hole
    ([j = randbelow(n - i); result[i] = pool[j]; pool[j] = pool[n - i - 1]]). *)
Fixpoint sample_loop (k : nat) (pool : list A) (g : rng) : list A * rng :=
  match k with
  | 0 => ([], g)
  | S k' =>
      match pool with
      | [] => ([], g)
      | d :: _ =>
          let (j, g1) := randbelow (List.length pool) g in
          let x := nth j pool d in
          let pool' := removelast (list_set j (last pool d) pool) in
          let (rest, g2) := sample_loop k' pool' g1 in
          (x :: rest, g2)
      end
  end.

(** [random.sample(population, k)]; a sample larger than the population
    raises [ValueError].  (For large populations the library tracks the
    chosen positions in a set instead of copying the pool; the samples that
    can come out are the same.) *)
Definition random_sample (population : list A) (k : nat) (g : rng)
  : option (list A * rng) :=
  if (List.length population <? k)%nat then None
  else Some (sample_loop k population g).

(** [x[i], x[j] = x[j], x[i]] *)
Definition swap (i j : nat) (x : list A) : list A :=
  match nth_error x i, nth_error x j with
  | Some a, Some b => list_set j a (list_set i b x)
  | _, _ => x
  end.

(** [for i in reversed(range(1, len(x))): j = randbelow(i + 1); swap] *)
Fixpoint shuffle_loop (i : nat) (x : list A) (g : rng) : list A * rng :=
  match i with
  | 0 => (x, g)
  | S i' =>
      let (j, g1) := randbelow (S i) g in
      shuffle_loop i' (swap i j x) g1
  end.

(** [random.shuffle(x)] *)
Definition random_shuffle (x : list A) (g : rng) : list A * rng :=
  shuffle_loop (List.length x - 1) x g.

End Random.

(* ================================================================= *)
(** ** The Start Quiz handler *)

(** [type_groups]: a dict from type to list of questions, in insertion
    order. *)
Definition type_groups : Type := list (value * list dict).

(** [tg.setdefault(k, []).append(q)] for a hashable [k]. *)
Fixpoint groups_append (tg : type_groups) (k : value) (q : dict)
  : type_groups :=
  match tg with
  | [] => [(k, [q])]
  | (k', l) :: tg' =>
      if py_eq k' k then (k', l ++ [q]) :: tg'
      else (k', l) :: groups_append tg' k q
  end.

(** An unhashable key raises [TypeError]. *)
Definition setdefault_append (tg : type_groups) (k : value) (q : dict)
  : option type_groups :=
  if hashable k then Some (groups_append tg k q) else None.

(** [tg.get(k, [])] *)
Fixpoint groups_get (tg : type_groups) (k : value) : list dict :=
  match tg with
  | [] => []
  | (k', l) :: tg' => if py_eq k' k then l else groups_get tg' k
  end.

(** [q.get("type", "unknown")] *)
Definition question_type (q : dict) : value :=
  dict_get_default q "type" (VStr "unknown").

(** Step 2: group by type. *)
Definition group_by_type (selected : list dict) : option type_groups :=
  fold_left (fun acc q => match acc with
                          | Some tg => setdefault_append tg (question_type q) q
                          | None => None
                          end) selected (Some []).

(** Step 3: shuffle within each type, in the dict's order. *)
Fixpoint shuffle_groups (tg : type_groups) (g : rng) : type_groups * rng :=
  match tg with
  | [] => ([], g)
  | (k, l) :: tg' =>
      let (l', g1) := random_shuffle l g in
      let (tg'', g2) := shuffle_groups tg' g1 in
      ((k, l') :: tg'', g2)
  end.

Definition type_order : list string :=
  ["multiple_choice"; "true_false"; "short_answer"; "fill_blank"; "unknown"].

(** Step 4: flatten back to a list, keeping type order. *)
Definition flatten_groups (tg : type_groups) : list dict :=
  fold_left (fun grouped q_type => grouped ++ groups_get tg (VStr q_type))
            type_order [].

(** The type of [q] is one of the five of [type_order]. *)
Definition known_type (q : dict) : bool :=
  existsb (fun t => py_eq (question_type q) (VStr t)) type_order.

(** [l] is five runs, one per type, in the order of [type_order]; a run may
    be empty. *)
Definition in_type_order (l : list dict) : Prop :=
  exists mc tf sa fb un,
    l = mc ++ tf ++ sa ++ fb ++ un
    /\ Forall (fun q => dict_get q "type" = VStr "multiple_choice") mc
    /\ Forall (fun q => dict_get q "type" = VStr "true_false") tf
    /\ Forall (fun q => dict_get q "type" = VStr "short_answer") sa
    /\ Forall (fun q => dict_get q "type" = VStr "fill_blank") fb
    /\ Forall (fun q => dict_get q "type" = VStr "unknown") un.

(** [st.session_state] *)
Record session_state : Type := mk_session {
  version : Z;
  quiz_questions : list dict;
  quiz_subject : value;
  quiz_config : dict
}.

(** The state the script initialises on first run. *)
Definition initial_session : session_state :=
  {| version := 0; quiz_questions := []; quiz_subject := VNone;
     quiz_config := [] |}.

(** How a press of Start Quiz ends: the session was stored and the script
    rerun; the "No questions found" warning was shown; an exception ended
    the run. *)
Inductive outcome : Type :=
| SessionStarted
| NoMatchingQuestions
| Raised.

Definition unless_all (chosen : value) : value :=
  if negb (py_eq chosen (VStr "All")) then chosen else VNone.

Definition start_quiz (st : session_state) (blocks : list block)
    (subject chosen_topic chosen_grade : value) (g : rng)
  : session_state * outcome :=
  let all_qs :=
    collect_questions_from_blocks blocks
      (unless_all chosen_topic) (unless_all chosen_grade) in
  match all_qs with
  | [] => (st, NoMatchingQuestions)
  | _ :: _ =>
      match random_sample all_qs (Nat.min 10 (List.length all_qs)) g with
      | None => (st, Raised)
      | Some (selected, g1) =>
          match group_by_type selected with
          | None => (st, Raised)
          | Some tg =>
              let (tg', _) := shuffle_groups tg g1 in
              let grouped_questions := flatten_groups tg' in
              ({| quiz_questions := grouped_questions;
                  quiz_subject := subject;
                  quiz_config := [("topic", chosen_topic);
                                  ("grade", chosen_grade)];
                  version := version st + 1 |},
               SessionStarted)
          end
      end
  end.

(** The body of the reset button. *)
Definition reset_quiz (st : session_state) : session_state :=
  {| quiz_questions := [];
     quiz_subject := VNone;
     quiz_config := [];
     version := version st + 1 |}.

(** The quiz UI, and with it the reset button, is shown only when
    [quiz_questions and quiz_subject] holds. *)
Definition quiz_active (st : session_state) : bool :=
  match quiz_questions st with
  | [] => false
  | _ :: _ => truthy (quiz_subject st)
  end.

(** The whole application: the catalog [subjects_data] (subject to blocks,
    in first-seen order) and the session state. *)
Record app : Type := mk_app {
  subjects_data : list (value * list block);
  session : session_state
}.

Fixpoint catalog_lookup (c : list (value * list block)) (subject : value)
  : option (list block) :=
  match c with
  | [] => None
  | (k, bs) :: c' =>
      if py_eq k subject then Some bs else catalog_lookup c' subject
  end.

(** The two buttons that write the session state.  Start Quiz sits in the
    tab of [subject] with the two select boxes' values; a button that is not
    on the page cannot be pressed, so the press changes nothing. *)
Inductive action : Type :=
| PressStart (subject chosen_topic chosen_grade : value) (g : rng)
| PressReset.

Definition handle (a : app) (act : action) : app :=
  match act with
  | PressStart subject chosen_topic chosen_grade g =>
      match catalog_lookup (subjects_data a) subject with
      | Some blocks =>
          {| subjects_data := subjects_data a;
             session := fst (start_quiz (session a) blocks subject
                                        chosen_topic chosen_grade g) |}
      | None => a
      end
  | PressReset =>
      if quiz_active (session a) then
        {| subjects_data := subjects_data a;
           session := reset_quiz (session a) |}
      else a
  end.

Definition run (a : app) (trace : list action) : app :=
  fold_left handle trace a.

(** Worked example: a bank of one block with questions of four types, one
    of them outside [type_order]. *)
Definition example_question (t a : string) : dict :=
  [("type", VStr t); ("question", VStr "?"); ("answer", VStr a)].

Definition example_blocks : list block :=
  [mk_block [("subject", VStr "English"); ("topic", VStr "Verbs");
             ("grade", VInt 7)]
            (Some [example_question "short_answer" "ran";
                   example_question "essay" "n/a";
                   example_question "multiple_choice" "b";
                   [("type", VStr "true_false"); ("question", VStr "?")];
                   example_question "true_false" "True";
                   example_question "short_answer" "went"])].

(** The bank of the worked example: one Algebra block of grade 7 with one
    [true_false] question. *)
Definition algebra_question : dict :=
  [("type", VStr "true_false"); ("question", VStr "2+2=4");
   ("answer", VStr "True")].

Definition algebra_blocks : list block :=
  [mk_block [("subject", VStr "Math"); ("topic", VStr "Algebra");
             ("grade", VInt 7)]
            (Some [algebra_question])].

(** A bank with two topics and two grades where no block has both the
    topic Verbs and the grade 8. *)
Definition english_blocks : list block :=
  [mk_block [("subject", VStr "English"); ("topic", VStr "Verbs");
             ("grade", VInt 7)]
            (Some [example_question "short_answer" "ran"]);
   mk_block [("subject", VStr "English"); ("topic", VStr "Nouns");
             ("grade", VInt 8)]
            (Some [example_question "short_answer" "cat"])].

(** A bank whose only question has a type outside [type_order]. *)
Definition essay_blocks : list block :=
  [mk_block [("subject", VStr "English")]
            (Some [example_question "essay" "n/a"])].

(** An instance of the parameter of the grader, for worked examples. *)
Definition no_repr : value -> string := fun _ => "".


(* ================================================================= *)
(** ** More of the script *)

Definition is_none (v : value) : bool :=
  match v with VNone => true | _ => false end.

(** The members of [l] are of one kind: all [None], all numbers or all
    strings. *)
Definition one_kind (l : list value) : bool :=
  forallb is_none l || forallb is_num l || forallb is_str l.

(** What decides equality of two hashable objects. *)
Inductive eq_key : Type :=
| KNone
| KNum (z : Z)
| KStr (s : string)
| KOther.

Definition key_of (v : value) : eq_key :=
  match v with
  | VNone => KNone
  | VBool b => KNum (if b then 1%Z else 0%Z)
  | VInt z => KNum z
  | VStr s => KStr s
  | VList _ | VDict _ => KOther
  end.

(** [total_avail], the number shown as "Available questions". *)
Definition total_avail (blocks : list block) (chosen_topic chosen_grade : value)
  : nat :=
  List.length (collect_questions_from_blocks blocks
                 (unless_all chosen_topic) (unless_all chosen_grade)).

(** The options of the radio shown for a [true_false] question; the first
    one is selected until the user picks another. *)
Definition true_false_options : list value :=
  [VStr "Select an answer"; VStr "True"; VStr "False"].

(* ----------------------------------------------------------------- *)
(** *** Upper-casing *)

(** [str.upper] on one code point below U+0100: the small letters a-z and
    U+00E0..U+00FE (but the division sign) go to their capitals, U+00DF goes
    to the two letters ["SS"], and U+00B5 and U+00FF go to capitals above
    U+00FF, which a [string] cannot hold ([None]). *)
Definition upper_char (c : ascii) : option string :=
  let n := nat_of_ascii c in
  if (n =? 223)%nat then Some "SS"
  else if ((n =? 181) || (n =? 255))%nat then None
  else if (((97 <=? n) && (n <=? 122))
           || ((224 <=? n) && (n <=? 254) && negb (n =? 247)))%nat
  then Some (String (ascii_of_nat (n - 32)) "")
  else Some (String c "").

(** [str.upper] *)
Fixpoint py_upper (s : string) : option string :=
  match s with
  | EmptyString => Some EmptyString
  | String c s' =>
      match upper_char c, py_upper s' with
      | Some u, Some r => Some (u ++ r)%string
      | _, _ => None
      end
  end.

(** The word "stra", U+00DF, "e". *)
Definition strasse : string :=
  ("stra" ++ String (ascii_of_nat 223) "e")%string.

(* ----------------------------------------------------------------- *)
(** *** Path names *)

(** The pieces of a path between its slashes. *)
Fixpoint split_slash (s : string) : list string :=
  match s with
  | EmptyString => [EmptyString]
  | String c s' =>
      if Ascii.eqb c "/" then EmptyString :: split_slash s'
      else match split_slash s' with
           | [] => [String c EmptyString]
           | x :: xs => String c x :: xs
           end
  end.

(** [Path(p).name] for a POSIX path: the last piece that is neither empty
    nor a single dot, or the empty string when there is none. *)
Definition path_name (p : string) : string :=
  last (filter (fun x => negb (String.eqb x "") && negb (String.eqb x "."))
               (split_slash p)) "".

(* ----------------------------------------------------------------- *)
(** *** Loading the subject files *)

(** What opening and parsing one subject file comes to: the file is not
    there; another exception was raised (message [e]); the file parsed to a
    list of blocks; the file parsed to something that is not a list. *)
Inductive file_read : Type :=
| ReadNotFound
| ReadFailed (e : string)
| ReadList (blocks : list block)
| ReadOther.

(** [load_subject_file]: the blocks, and the messages given to [st.error].
    [name] is [path.name]. *)
Definition load_subject_file (name : string) (r : file_read)
  : list block * list string :=
  match r with
  | ReadList blocks => (blocks, [])
  | ReadOther => ([], [])
  | ReadNotFound => ([], [])
  | ReadFailed e => ([], [("Error loading " ++ name ++ ": " ++ e)%string])
  end.

(** The catalog: a dict from subject to list of blocks, in insertion
    order. *)
Definition catalog : Type := list (value * list block).

(** [block.get("subject", "Unknown")] *)
Definition block_subject (b : block) : value :=
  dict_get_default (b_fields b) "subject" (VStr "Unknown").

(** [subjects.setdefault(subj, []).append(block)] for a hashable [subj]. *)
Fixpoint catalog_append (c : catalog) (k : value) (b : block) : catalog :=
  match c with
  | [] => [(k, [b])]
  | (k', l) :: c' =>
      if py_eq k' k then (k', l ++ [b]) :: c'
      else (k', l) :: catalog_append c' k b
  end.

(** One turn of the inner loop; an unhashable subject raises [TypeError]. *)
Definition add_block (c : catalog) (b : block) : option catalog :=
  if hashable (block_subject b) then
    Some (catalog_append c (block_subject b) b)
  else None.

Definition add_blocks (c : catalog) (blocks : list block) : option catalog :=
  fold_left (fun acc b => match acc with
                          | Some c => add_block c b
                          | None => None
                          end) blocks (Some c).

(** The loop of [gather_subjects] over the file names, from the catalog [c]
    and the messages [errs] so far.  [fs] says what reading each file
    gives. *)
Fixpoint gather_loop (fs : string -> file_read) (base_files : list string)
    (c : catalog) (errs : list string) : option catalog * list string :=
  match base_files with
  | [] => (Some c, errs)
  | p :: rest =>
      let (blocks, e) := load_subject_file (path_name p) (fs p) in
      match add_blocks c blocks with
      | None => (None, errs ++ e)
      | Some c' => gather_loop fs rest c' (errs ++ e)
      end
  end.

Definition gather_subjects (fs : string -> file_read)
    (base_files : list string) : option catalog * list string :=
  gather_loop fs base_files [] [].

Definition subject_files : list string :=
  ["math.json"; "english.json"; "science.json"].

(** The start of the script: the catalog is loaded; an empty catalog stops
    the script with an error message; otherwise the session state is
    initialised. *)
Inductive startup : Type :=
| StartupRaised
| StartupStopped (errors : list string)
| StartupReady (a : app) (errors : list string).

Definition start_script (fs : string -> file_read) : startup :=
  match gather_subjects fs subject_files with
  | (None, _) => StartupRaised
  | (Some [], errs) =>
      StartupStopped
        (errs ++ ["No subject JSON files found or files are empty. Place math.json, english.json, science.json in this folder."])
  | (Some c, errs) =>
      StartupReady {| subjects_data := c; session := initial_session |} errs
  end.

(** All blocks of the files, in scan order. *)
Definition loaded_blocks (fs : string -> file_read) (base_files : list string)
  : list block :=
  flat_map (fun p => fst (load_subject_file (path_name p) (fs p)))
           base_files.

(** [subjects_data[s]], with the empty list where Python raises
    [KeyError]. *)
Definition catalog_get (c : catalog) (s : value) : list block :=
  match catalog_lookup c s with Some bs => bs | None => [] end.

(** A catalog as the loop keeps it: hashable keys, no two of them equal, no
    empty entry. *)
Definition catalog_ok (c : catalog) : Prop :=
  Forall (fun kv => hashable (fst kv) = true) c
  /\ distinct_members (map fst c)
  /\ Forall (fun kv => snd kv <> []) c.

(** A folder where two of the three files are there. *)
Definition example_fs (p : string) : file_read :=
  if String.eqb p "math.json" then ReadList algebra_blocks
  else if String.eqb p "english.json" then ReadList english_blocks
  else ReadNotFound.

(** A folder where the file in [data] does not parse. *)
Definition broken_fs (p : string) : file_read :=
  if String.eqb p "data/math.json" then ReadFailed "Expecting value"
  else if String.eqb p "english.json" then ReadList english_blocks
  else ReadNotFound.

(* ----------------------------------------------------------------- *)
(** *** The quiz form *)

(** [str(n)] for an index. *)
Definition nat_str (n : nat) : string :=
  NilZero.string_of_uint (Nat.to_uint n).

(** [f"q{i}_v{version}"] *)
Definition widget_key (i : nat) (version : Z) : string :=
  ("q" ++ nat_str i ++ "_v" ++ NilZero.string_of_int (Z.to_int version))%string.

Definition type_colors : list (string * string) :=
  [("multiple_choice", "#e0f7fa"); ("true_false", "#fff9c4");
   ("short_answer", "#e1bee7"); ("fill_blank", "#c8e6c9");
   ("unknown", "#f5f5f5")].

(** [type_colors.get(q_type, '#f5f5f5')] *)
Fixpoint color_of (colors : list (string * string)) (t : string) : string :=
  match colors with
  | [] => "#f5f5f5"
  | (k, c) :: rest => if String.eqb k t then c else color_of rest t
  end.

(** The input widgets of the form. *)
Inductive widget : Type :=
| Radio (label : string) (options : list value) (key : string)
| TextInput (label : string) (key : string) (placeholder : option string).

Definition widget_key_of (w : widget) : string :=
  match w with
  | Radio _ _ k => k
  | TextInput _ k _ => k
  end.

(** What the form shows for one question: the type header when one is put
    before it (the type and its colour; the title text is made from the
    type), the number after "Q", the question text and the input widget. *)
Record shown_question : Type := mk_shown {
  shown_header : option (string * string);
  shown_number : nat;
  shown_text : value;
  shown_widget : widget
}.

(** [["Select an answer"] + choices if choices else ["Select an answer"]];
    a true [choices] that is not a list raises [TypeError]. *)
Definition radio_options (choices : value) : option (list value) :=
  match choices with
  | VList l => Some (VStr "Select an answer" :: l)
  | v => if truthy v then None else Some [VStr "Select an answer"]
  end.

(** The input of question [q] at index [i]. *)
Definition widget_for (q : dict) (q_type : value) (i : nat) (version : Z)
  : option widget :=
  let key := widget_key i version in
  if py_eq q_type (VStr "multiple_choice") then
    match radio_options (dict_get_default q "choices" (VList [])) with
    | Some options =>
        Some (Radio ("Choose answer for Q" ++ nat_str (i + 1)) options key)
    | None => None
    end
  else if py_eq q_type (VStr "true_false") then
    Some (Radio ("True or False for Q" ++ nat_str (i + 1))
                true_false_options key)
  else if py_eq q_type (VStr "short_answer") then
    Some (TextInput ("Answer for Q" ++ nat_str (i + 1)) key None)
  else if py_eq q_type (VStr "fill_blank") then
    Some (TextInput ("Fill the blank for Q" ++ nat_str (i + 1)) key
                    (Some "Type the missing word/number"))
  else
    Some (TextInput ("Answer for Q" ++ nat_str (i + 1)) key None).

(** The header put before a question whose type differs from
    [current_type]; building its title calls [q_type.replace], which raises
    [AttributeError] on a type that is not a string. *)
Definition header_for (q_type current_type : value)
  : option (option (string * string)) :=
  if negb (py_eq q_type current_type) then
    match q_type with
    | VStr t => Some (Some (t, color_of type_colors t))
    | _ => None
    end
  else Some None.

(** [for i, q in enumerate(questions)] of the form, from index [i] with
    [current_type] as it stands. *)
Fixpoint render_loop (version : Z) (i : nat) (current_type : value)
    (questions : list dict) : option (list shown_question) :=
  match questions with
  | [] => Some []
  | q :: rest =>
      let q_type := question_type q in
      match header_for q_type current_type with
      | None => None
      | Some header =>
          let current_type' :=
            if negb (py_eq q_type current_type) then q_type
            else current_type in
          match widget_for q q_type i version with
          | None => None
          | Some w =>
              match render_loop version (S i) current_type' rest with
              | None => None
              | Some items =>
                  Some ({| shown_header := header;
                           shown_number := i + 1;
                           shown_text := dict_get q "question";
                           shown_widget := w |} :: items)
              end
          end
      end
  end.

(** The form of the active quiz. *)
Definition render_quiz (st : session_state) : option (list shown_question) :=
  render_loop (version st) 0 VNone (quiz_questions st).

(** The types of the headers shown, in order. *)
Definition shown_headers (items : list shown_question) : list string :=
  flat_map (fun it => match shown_header it with
                      | Some (t, _) => [t]
                      | None => []
                      end) items.

(** The headers that a run of types gives, starting from [current_type]. *)
Fixpoint header_types (current_type : value) (types : list value)
  : list string :=
  match types with
  | [] => []
  | t :: rest =>
      if py_eq t current_type then header_types current_type rest
      else match t with
           | VStr s => s :: header_types t rest
           | _ => header_types t rest
           end
  end.

(** No character of [s] is the underscore. *)
Fixpoint no_underscore (s : string) : Prop :=
  match s with
  | EmptyString => True
  | String c s' => c <> "_"%char /\ no_underscore s'
  end.

(** The [choices] of [q] can be put after the first option: they are a list,
    or they are missing or false. *)
Definition choices_ok (q : dict) : bool :=
  match radio_options (dict_get_default q "choices" (VList [])) with
  | Some _ => true
  | None => false
  end.

(** The submissions the form collects: what each widget returns, in the
    order of the questions.  [entered] says what the widget of a key
    returns. *)
Definition form_answers (entered : string -> value)
    (items : list shown_question) : list value :=
  map (fun it => entered (widget_key_of (shown_widget it))) items.
(* ================================================================= *)
(** * Properties *)

(** ** Equality with a string *)

Lemma py_eq_str_r (v : value) (s : string) :
  py_eq v (VStr s) = true <-> v = VStr s.
Proof.
  destruct v as [ | b | z | t | l | d ]; simpl;
    try (split; [ discriminate | discriminate ]).
  rewrite String.eqb_eq. split; [ intros ->; reflexivity | congruence ].
Qed.

Lemma py_eq_str_l (v : value) (s : string) :
  py_eq (VStr s) v = true <-> v = VStr s.
Proof.
  destruct v as [ | b | z | t | l | d ]; simpl;
    try (split; [ discriminate | discriminate ]).
  rewrite String.eqb_eq. split; [ intros ->; reflexivity | congruence ].
Qed.

Lemma py_eq_str_neq (v : value) (s : string) :
  v <> VStr s -> py_eq v (VStr s) = false.
Proof.
  intros H. destruct (py_eq v (VStr s)) eqn:E; [ | reflexivity ].
  apply py_eq_str_r in E. contradiction.
Qed.

(** ** Stripping and lower-casing *)

Lemma lstrip_all_space (w : string) : all_space w = true -> lstrip w = "".
Proof.
  induction w as [ | c w IH ]; simpl; [ reflexivity | ].
  intros H. apply andb_true_iff in H as [Hc Hw]. rewrite Hc. auto.
Qed.

Lemma strip_all_space (w : string) : all_space w = true -> strip w = "".
Proof.
  intros H. unfold strip. rewrite lstrip_all_space by exact H. reflexivity.
Qed.














(** ** The grader *)

Section GraderFacts.

Variable container_str : value -> string.


Lemma normalize_blank (u : value) :
  u = VNone \/ (exists s, u = VStr s /\ all_space s = true) ->
  normalize_answer container_str u = "".
Proof.
  intros [-> | [s [-> Hs]]]; [ reflexivity | ].
  simpl. rewrite strip_all_space by exact Hs. reflexivity.
Qed.

(** For every type but [true_false] the mark is the equality of the two
    normalized answers. *)
Lemma pass_mark_plain (q : dict) (user_raw : value) :
  dict_get q "type" <> VStr "true_false" ->
  pass_mark container_str q user_raw
  = String.eqb (normalize_answer container_str user_raw)
               (normalize_answer container_str (dict_get q "answer")).
Proof.
  intros Hty. unfold pass_mark.
  rewrite (py_eq_str_neq _ _ Hty).
  destruct (py_in _ _); [ reflexivity | ].
  destruct (py_eq _ _); reflexivity.
Qed.

Lemma pass_mark_true_false (q : dict) (user_raw : value) :
  dict_get q "type" = VStr "true_false" ->
  pass_mark container_str q user_raw
  = (String.eqb (normalize_answer container_str user_raw) "true"
     || String.eqb (normalize_answer container_str user_raw) "false")
    && String.eqb (normalize_answer container_str user_raw)
                  (normalize_answer container_str (dict_get q "answer")).
Proof. intros Hty. unfold pass_mark. rewrite Hty. reflexivity. Qed.

(** C5.  A [true_false] question is marked correct exactly when the
    normalized submission is ["true"] or ["false"] and equals the normalized
    stored answer; a submission that normalizes to neither literal is marked
    incorrect, whatever the stored answer is. *)
Theorem true_false_mark_iff (q : dict) (user_raw : value) :
  dict_get q "type" = VStr "true_false" ->
  (pass_mark container_str q user_raw = true <->
   (normalize_answer container_str user_raw = "true"
    \/ normalize_answer container_str user_raw = "false")
   /\ normalize_answer container_str user_raw
      = normalize_answer container_str (dict_get q "answer"))
  /\ (normalize_answer container_str user_raw <> "true" ->
      normalize_answer container_str user_raw <> "false" ->
      pass_mark container_str q user_raw = false).
Proof.
  intros Hty. rewrite (pass_mark_true_false q user_raw Hty).
  rewrite andb_true_iff, orb_true_iff, !String.eqb_eq.
  split; [ tauto | ].
  intros Ht Hf.
  apply String.eqb_neq in Ht. apply String.eqb_neq in Hf.
  rewrite Ht, Hf. reflexivity.
Qed.


(** C10.  For a question of any type other than [true_false], a null or
    whitespace-only submission is marked correct exactly when the stored
    answer normalizes to the empty string. *)
Theorem blank_submission_mark (q : dict) (user_raw : value) :
  dict_get q "type" <> VStr "true_false" ->
  user_raw = VNone \/ (exists s, user_raw = VStr s /\ all_space s = true) ->
  (pass_mark container_str q user_raw = true <->
   normalize_answer container_str (dict_get q "answer") = "").
Proof.
  intros Hty Hu.
  rewrite (pass_mark_plain q _ Hty), (normalize_blank _ Hu), String.eqb_eq.
  split; intros H; symmetry; exact H.
Qed.

(** The marks of the whole loop are the marks of the questions in order,
    and the score counts the correct ones. *)
Lemma grading_loop_marks (questions : list dict) (user_answers : list value) :
  forall i score marks final,
    grading_loop container_str questions user_answers i score
    = Some (marks, final) ->
    List.length marks = List.length questions
    /\ final = score + List.length (filter (fun m => m) marks)
    /\ forall n q,
         nth_error questions n = Some q ->
         exists u, nth_error user_answers (i + n) = Some u
                   /\ nth_error marks n = Some (pass_mark container_str q u).
Proof.
  induction questions as [ | q rest IH ]; intros i score marks final; simpl.
  - intros [= <- <-]. repeat split; [ simpl; lia | ].
    intros [ | n ] x; discriminate.
  - destruct (nth_error user_answers i) as [ u | ] eqn:Eu; [ | discriminate ].
    destruct (grading_loop _ rest _ _ _) as [ [ms f] | ] eqn:Er;
      [ | discriminate ].
    intros [= <- <-]. apply IH in Er as (Hlen & Hf & Hn).
    repeat split.
    + simpl. congruence.
    + simpl. destruct (pass_mark _ q u); simpl; lia.
    + intros [ | n ] x; simpl.
      * intros [= <-]. exists u. rewrite Nat.add_0_r. auto.
      * intros Hx. destruct (Hn n x Hx) as (u' & Hu' & Hm).
        exists u'. split; [ | exact Hm ].
        replace (i + S n) with (S i + n) by lia. exact Hu'.
Qed.

(** Grading one question with one submission. *)
Lemma grade_single (q : dict) (user_raw : value) :
  grade container_str [q] [user_raw]
  = Some ([pass_mark container_str q user_raw],
          if pass_mark container_str q user_raw then 1 else 0).
Proof. reflexivity. Qed.

End GraderFacts.

(** The worked example: the Algebra question is extracted by the filters
    Algebra and 7; ["true"] and ["TRUE "] are correct, ["yes"] is not. *)
Example algebra_example :
  collect_questions_from_blocks algebra_blocks (VStr "Algebra") (VInt 7)
  = [algebra_question]
  /\ grade no_repr [algebra_question] [VStr "true"] = Some ([true], 1)
  /\ grade no_repr [algebra_question] [VStr "TRUE "] = Some ([true], 1)
  /\ grade no_repr [algebra_question] [VStr "yes"] = Some ([false], 0).
Proof. repeat split; reflexivity. Qed.

Lemma true_false_mark_iff_witness :
  dict_get algebra_question "type" = VStr "true_false"
  /\ (pass_mark no_repr algebra_question (VStr "TRUE ") = true <->
      (normalize_answer no_repr (VStr "TRUE ") = "true"
       \/ normalize_answer no_repr (VStr "TRUE ") = "false")
      /\ normalize_answer no_repr (VStr "TRUE ")
         = normalize_answer no_repr (dict_get algebra_question "answer")).
Proof.
  split; [ reflexivity | ].
  apply (true_false_mark_iff no_repr algebra_question (VStr "TRUE ")).
  reflexivity.
Defined.



Example null_answer_altered_case :
  let q := [("type", VStr "short_answer"); ("question", VStr "?");
            ("answer", VNone)] in
  has_required_fields q = true
  /\ py_str no_repr (dict_get q "answer") = "None"
  /\ alter_case [true; true; true; true] "None" = "nONE"
  /\ pass_mark no_repr q (VStr "nONE") = false.
Proof. repeat split; reflexivity. Qed.

Example strasse_upper_cased :
  py_upper strasse = Some "STRASSE"
  /\ normalize_answer no_repr (VStr "STRASSE") = "strasse"
  /\ normalize_answer no_repr (VStr strasse) = strasse
  /\ pass_mark no_repr (example_question "short_answer" strasse)
                (VStr "STRASSE") = false.
Proof. repeat split; reflexivity. Qed.

Lemma blank_submission_mark_witness :
  pass_mark no_repr (example_question "fill_blank" " ") (VStr "   ") = true
  <-> normalize_answer no_repr (VStr " ") = "".
Proof.
  apply (blank_submission_mark no_repr (example_question "fill_blank" " ")
           (VStr "   ")).
  - simpl. discriminate.
  - right. exists "   ". split; reflexivity.
Defined.

(** ** The filter engine: extraction *)

Lemma collect_inner (qs out : list dict) :
  fold_left (fun out q => if has_required_fields q then out ++ [q] else out)
            qs out
  = out ++ filter has_required_fields qs.
Proof.
  revert out. induction qs as [ | q qs IH ]; intros out; simpl.
  - rewrite app_nil_r. reflexivity.
  - rewrite IH. destruct (has_required_fields q); [ | reflexivity ].
    rewrite <- app_assoc. reflexivity.
Qed.

Lemma collect_outer (blocks : list block) (t g : value) (out : list dict) :
  fold_left
    (fun out b =>
       if block_matches b t g then
         fold_left
           (fun out q => if has_required_fields q then out ++ [q] else out)
           (block_questions b) out
       else out)
    blocks out
  = out ++ all_valid_questions (filter (fun b => block_matches b t g) blocks).
Proof.
  revert out. induction blocks as [ | b blocks IH ]; intros out; simpl.
  - rewrite app_nil_r. reflexivity.
  - rewrite IH. destruct (block_matches b t g); [ | reflexivity ].
    rewrite collect_inner. simpl. rewrite app_assoc. reflexivity.
Qed.

(** The loop of [collect_questions_from_blocks] as a filter and a
    concatenation. *)
Lemma collect_questions_eq (blocks : list block) (t g : value) :
  collect_questions_from_blocks blocks t g
  = all_valid_questions (filter (fun b => block_matches b t g) blocks).
Proof. unfold collect_questions_from_blocks. apply collect_outer. Qed.

Lemma filter_all {A : Type} (f : A -> bool) (l : list A) :
  (forall x, f x = true) -> filter f l = l.
Proof.
  intros H. induction l as [ | x l IH ]; simpl; [ reflexivity | ].
  rewrite H, IH. reflexivity.
Qed.

(** C7.  With both filters null, extraction returns the valid questions of
    every block, in block order and source order, duplicates kept; every
    question returned has [type], [question] and [answer], and a question
    of a block is returned exactly when it has the three. *)
Theorem collect_without_filters (blocks : list block) :
  collect_questions_from_blocks blocks VNone VNone
  = all_valid_questions blocks
  /\ (forall q, In q (collect_questions_from_blocks blocks VNone VNone) <->
        exists b, In b blocks /\ In q (block_questions b)
                  /\ dict_has q "type" = true
                  /\ dict_has q "question" = true
                  /\ dict_has q "answer" = true).
Proof.
  assert (E : collect_questions_from_blocks blocks VNone VNone
              = all_valid_questions blocks).
  { rewrite collect_questions_eq, filter_all; reflexivity. }
  split; [ exact E | ].
  intros q. rewrite E. unfold all_valid_questions.
  rewrite in_flat_map. split.
  - intros (b & Hb & Hq). apply filter_In in Hq as [Hq Hv].
    unfold has_required_fields in Hv.
    apply andb_true_iff in Hv as [Hv Ha].
    apply andb_true_iff in Hv as [Ht Hqq].
    exists b. auto.
  - intros (b & Hb & Hq & Ht & Hqq & Ha). exists b. split; [ exact Hb | ].
    apply filter_In. split; [ exact Hq | ].
    unfold has_required_fields. rewrite Ht, Hqq, Ha. reflexivity.
Qed.

(** A block without a [topic] member is not matched by the filter
    ["General"]. *)
Lemma untopiced_block_not_general (b : block) (g : value) :
  dict_has (b_fields b) "topic" = false ->
  block_matches b (VStr "General") g = false.
Proof.
  unfold dict_has, block_matches, dict_get, dict_get_default.
  destruct (dict_lookup (b_fields b) "topic"); [ discriminate | ].
  reflexivity.
Qed.

(** C2, at a block that omits [topic].  The topic list offers ["General"]
    for it, and extraction with the topic filter ["General"] returns none of
    its questions. *)
Theorem general_filter_skips_untopiced_block :
  let q := [("type", VStr "short_answer"); ("question", VStr "1+1?");
            ("answer", VStr "2")] in
  let b := mk_block [("subject", VStr "Math")] (Some [q]) in
  dict_has (b_fields b) "topic" = false
  /\ has_required_fields q = true
  /\ get_topics_and_grades [b] = Some ([VStr "General"], [])
  /\ collect_questions_from_blocks [b] (VStr "General") VNone = []
  /\ collect_questions_from_blocks [b] VNone VNone = [q].
Proof. repeat split; reflexivity. Qed.

(** ** Session state *)

(** C4.  When no question matches the chosen topic and grade, Start Quiz
    ends with the warning and the session state (questions, subject, filter
    configuration and version) is the one it was. *)
Theorem start_quiz_empty_pool (st : session_state) (blocks : list block)
    (subject chosen_topic chosen_grade : value) (g : rng) :
  collect_questions_from_blocks blocks
    (unless_all chosen_topic) (unless_all chosen_grade) = [] ->
  start_quiz st blocks subject chosen_topic chosen_grade g
  = (st, NoMatchingQuestions).
Proof. intros H. unfold start_quiz. rewrite H. reflexivity. Qed.

Lemma start_quiz_empty_pool_witness :
  let st := {| version := 4;
               quiz_questions := [algebra_question];
               quiz_subject := VStr "Math";
               quiz_config := [("topic", VStr "All");
                               ("grade", VStr "All")] |} in
  get_topics_and_grades english_blocks
  = Some ([VStr "Nouns"; VStr "Verbs"], [VInt 7; VInt 8])
  /\ collect_questions_from_blocks english_blocks
       (unless_all (VStr "Verbs")) (unless_all (VInt 8)) = []
  /\ start_quiz st english_blocks (VStr "English") (VStr "Verbs") (VInt 8)
                [1; 2; 3]
     = (st, NoMatchingQuestions).
Proof.
  intros st. split; [ reflexivity | ]. split; [ reflexivity | ].
  apply (start_quiz_empty_pool st english_blocks (VStr "English")
           (VStr "Verbs") (VInt 8) [1; 2; 3]).
  reflexivity.
Defined.

(** Every way out of [start_quiz] other than [SessionStarted] leaves the
    state alone; [SessionStarted] stores a state whose version is one more. *)
Lemma start_quiz_cases (st : session_state) (blocks : list block)
    (subject chosen_topic chosen_grade : value) (g : rng) :
  let r := start_quiz st blocks subject chosen_topic chosen_grade g in
  (snd r <> SessionStarted /\ fst r = st)
  \/ (snd r = SessionStarted
      /\ version (fst r) = (version st + 1)%Z
      /\ quiz_subject (fst r) = subject
      /\ quiz_config (fst r)
         = [("topic", chosen_topic); ("grade", chosen_grade)]).
Proof.
  unfold start_quiz.
  destruct (collect_questions_from_blocks _ _ _) as [ | q0 pool ].
  { left. split; [ discriminate | reflexivity ]. }
  destruct (random_sample _ _ _) as [ [selected g1] | ].
  2:{ left. split; [ discriminate | reflexivity ]. }
  destruct (group_by_type selected) as [ tg | ].
  2:{ left. split; [ discriminate | reflexivity ]. }
  destruct (shuffle_groups tg g1) as [tg' g2].
  right. repeat split; reflexivity.
Qed.

Lemma handle_catalog (a : app) (act : action) :
  subjects_data (handle a act) = subjects_data a.
Proof.
  destruct act as [ subject t gr g | ]; simpl.
  - destruct (catalog_lookup _ _); reflexivity.
  - destruct (quiz_active _); reflexivity.
Qed.

Lemma handle_version (a : app) (act : action) :
  session (handle a act) = session a
  \/ version (session (handle a act)) = (version (session a) + 1)%Z.
Proof.
  destruct act as [ subject t gr g | ]; simpl.
  - destruct (catalog_lookup _ _) as [ blocks | ]; [ | left; reflexivity ].
    simpl.
    destruct (start_quiz_cases (session a) blocks subject t gr g)
      as [ [_ H] | [_ [H _]] ]; [ left | right ]; exact H.
  - destruct (quiz_active _); [ right | left ]; reflexivity.
Qed.

Lemma run_app (a : app) (tr1 tr2 : list action) :
  run a (tr1 ++ tr2) = run (run a tr1) tr2.
Proof. unfold run. apply fold_left_app. Qed.

Lemma run_version (tr : list action) :
  forall a,
    (version (session a) <= version (session (run a tr)))%Z
    /\ (version (session (run a tr)) = version (session a) ->
        session (run a tr) = session a).
Proof.
  induction tr as [ | act tr IH ]; intros a; simpl.
  - split; [ lia | reflexivity ].
  - destruct (IH (handle a act)) as [Hle Heq].
    destruct (handle_version a act) as [ Hs | Hv ].
    + rewrite Hs in Hle, Heq. split; [ exact Hle | ].
      exact Heq.
    + split; [ lia | ]. intros H. lia.
Qed.

(** C9, as the code has it.  Reset adds one to the version and clears the
    questions, the subject and the filter configuration; no action touches
    the catalog; a start that stores a session adds one to the version; every
    action either adds one to the version or leaves the whole session state
    as it was (a start that found no question or raised, a button that is
    not on the page); so along any sequence of start and reset actions the
    version never decreases, it is strictly larger whenever the session
    state has changed, and no version is used for two session states. *)
Theorem reset_and_version_discipline :
  (forall st,
      reset_quiz st
      = {| version := version st + 1; quiz_questions := [];
           quiz_subject := VNone; quiz_config := [] |})
  /\ (forall a, quiz_active (session a) = true ->
        session (handle a PressReset) = reset_quiz (session a))
  /\ (forall a act, subjects_data (handle a act) = subjects_data a)
  /\ (forall a trace, subjects_data (run a trace) = subjects_data a)
  /\ (forall st blocks subject chosen_topic chosen_grade g,
        snd (start_quiz st blocks subject chosen_topic chosen_grade g)
        = SessionStarted ->
        version (fst (start_quiz st blocks subject chosen_topic chosen_grade g))
        = (version st + 1)%Z)
  /\ (forall a act,
        session (handle a act) = session a
        \/ version (session (handle a act)) = (version (session a) + 1)%Z)
  /\ (forall a tr1 tr2,
        (version (session (run a tr1))
         <= version (session (run a (tr1 ++ tr2))))%Z
        /\ (session (run a (tr1 ++ tr2)) <> session (run a tr1) ->
            (version (session (run a tr1))
             < version (session (run a (tr1 ++ tr2))))%Z)
        /\ (version (session (run a (tr1 ++ tr2)))
            = version (session (run a tr1)) ->
            session (run a (tr1 ++ tr2)) = session (run a tr1))).
Proof.
  split; [ reflexivity | ].
  split; [ intros a H; simpl; rewrite H; reflexivity | ].
  split; [ exact handle_catalog | ].
  split.
  { intros a trace. revert a.
    induction trace as [ | act tr IH ]; intros a; [ reflexivity | ].
    change (run a (act :: tr)) with (run (handle a act) tr).
    rewrite IH. apply handle_catalog. }
  split.
  { intros st blocks subject t gr g H.
    destruct (start_quiz_cases st blocks subject t gr g)
      as [ [Hn _] | [_ [Hv _]] ]; [ contradiction | exact Hv ]. }
  split; [ exact handle_version | ].
  intros a tr1 tr2. rewrite run_app.
  destruct (run_version tr2 (run a tr1)) as [Hle Heq].
  split; [ exact Hle | ]. split; [ | exact Heq ].
  intros Hne.
  destruct (Z.eq_dec (version (session (run (run a tr1) tr2)))
                     (version (session (run a tr1)))) as [ E | E ].
  - elim Hne. apply Heq, E.
  - lia.
Qed.

Lemma reset_and_version_discipline_witness :
  let a := {| subjects_data := [(VStr "English", example_blocks)];
              session := initial_session |} in
  let a1 := handle a (PressStart (VStr "English") (VStr "All") (VStr "All")
                                 [2; 7; 1]) in
  quiz_active (session a1) = true
  /\ session (handle a1 PressReset) = reset_quiz (session a1)
  /\ version (session (handle a1 PressReset)) = 2%Z
  /\ subjects_data (handle a1 PressReset) = subjects_data a.
Proof.
  intros a a1.
  destruct reset_and_version_discipline as (_ & Hreset & Hcat & _).
  split; [ reflexivity | ].
  split; [ apply Hreset; reflexivity | ].
  split; [ reflexivity | ].
  rewrite Hcat. apply Hcat.
Defined.

(** It is not so that every start or reset action makes the version
    strictly larger.  Choosing the topic Verbs and the grade 8, both on
    offer, matches no block; the press of Start Quiz shows the warning and
    the version stays 0. *)
Lemma start_without_match_keeps_version :
  ~ (forall a act,
        (version (session a) < version (session (handle a act)))%Z).
Proof.
  intros H.
  specialize (H {| subjects_data := [(VStr "English", english_blocks)];
                   session := initial_session |}
                (PressStart (VStr "English") (VStr "Verbs") (VInt 8) [])).
  vm_compute in H. discriminate.
Qed.

(** ** Comparison of set members *)

Lemma py_lt_cases (a b : value) (r : bool) :
  py_lt a b = Some r ->
  (exists x y, num_of a = Some x /\ num_of b = Some y /\ r = Z.ltb x y)
  \/ (exists s t, a = VStr s /\ b = VStr t /\ r = String.ltb s t).
Proof.
  unfold py_lt.
  destruct (num_of a) as [ x | ] eqn:Ea.
  - destruct (num_of b) as [ y | ] eqn:Eb.
    + intros [= <-]. left. exists x, y. auto.
    + destruct a; try discriminate.
  - destruct a; try discriminate. destruct b; try discriminate.
    intros [= <-]. right. eauto.
Qed.

Lemma py_lt_num (a b : value) (x y : Z) :
  num_of a = Some x -> num_of b = Some y -> py_lt a b = Some (Z.ltb x y).
Proof. intros Ea Eb. unfold py_lt. rewrite Ea, Eb. reflexivity. Qed.

Lemma py_eq_num (a b : value) (x y : Z) :
  num_of a = Some x -> num_of b = Some y -> py_eq a b = Z.eqb x y.
Proof.
  destruct a; try discriminate; destruct b; try discriminate;
    simpl; intros [= <-] [= <-]; reflexivity.
Qed.

Lemma string_ltb_lt (s t : string) :
  String.ltb s t = true <-> String_as_OT.lt s t.
Proof.
  unfold String.ltb. rewrite <- String_as_OT.cmp_lt. unfold String_as_OT.cmp.
  destruct (String.compare s t); split; congruence.
Qed.

Lemma string_ltb_trans (s t u : string) :
  String.ltb s t = true -> String.ltb t u = true -> String.ltb s u = true.
Proof.
  rewrite !string_ltb_lt. apply String_as_OT.lt_trans.
Qed.

Lemma string_ltb_irrefl (s : string) : String.ltb s s = false.
Proof.
  unfold String.ltb.
  replace (String.compare s s) with Eq; [ reflexivity | ].
  symmetry. apply (proj2 (String_as_OT.cmp_eq s s)). reflexivity.
Qed.

Lemma string_ltb_total (s t : string) :
  String.ltb s t = false -> String.eqb s t = false -> String.ltb t s = true.
Proof.
  unfold String.ltb. rewrite (String.compare_antisym t s).
  destruct (String.compare s t) eqn:E; simpl; try congruence.
  apply (proj1 (String_as_OT.cmp_eq s t)) in E. subst t.
  rewrite String.eqb_refl. discriminate.
Qed.

Lemma value_lt_trans (a b c : value) :
  value_lt a b -> value_lt b c -> value_lt a c.
Proof.
  unfold value_lt. intros Hab Hbc.
  destruct (py_lt_cases _ _ _ Hab) as [ (x & y & Ex & Ey & Hxy)
                                      | (s & t & -> & -> & Hst) ];
    destruct (py_lt_cases _ _ _ Hbc) as [ (y' & z & Ey' & Ez & Hyz)
                                        | (t' & u & Et & -> & Htu) ].
  - rewrite Ey in Ey'. injection Ey' as <-.
    rewrite (py_lt_num _ _ _ _ Ex Ez). f_equal.
    symmetry in Hxy, Hyz. apply Z.ltb_lt in Hxy. apply Z.ltb_lt in Hyz.
    apply Z.ltb_lt. lia.
  - subst b. discriminate.
  - discriminate.
  - injection Et as <-. change (Some (String.ltb s u) = Some true). f_equal.
    apply (string_ltb_trans s t u); congruence.
Qed.

Lemma value_lt_irrefl (a : value) : ~ value_lt a a.
Proof.
  unfold value_lt. intros H.
  destruct (py_lt_cases _ _ _ H) as [ (x & y & Ex & Ey & Hxy)
                                    | (s & t & -> & Et & Hst) ].
  - rewrite Ex in Ey. injection Ey as <-. rewrite Z.ltb_irrefl in Hxy.
    discriminate.
  - injection Et as <-. rewrite string_ltb_irrefl in Hst. discriminate.
Qed.

(** Of two comparable members that are not equal, one is below the other. *)
Lemma value_lt_total (x y : value) :
  py_lt x y = Some false -> py_eq x y = false -> value_lt y x.
Proof.
  unfold value_lt. intros Hlt Heq.
  destruct (py_lt_cases _ _ _ Hlt) as [ (a & b & Ea & Eb & Hab)
                                      | (s & t & -> & -> & Hst) ].
  - rewrite (py_eq_num _ _ _ _ Ea Eb) in Heq.
    rewrite (py_lt_num _ _ _ _ Eb Ea). f_equal.
    symmetry in Hab. apply Z.ltb_ge in Hab. apply Z.eqb_neq in Heq.
    apply Z.ltb_lt. lia.
  - change (Some (String.ltb t s) = Some true). f_equal.
    simpl in Heq. apply string_ltb_total; congruence.
Qed.

Lemma py_eq_refl_hashable (v : value) : hashable v = true -> py_eq v v = true.
Proof.
  destruct v as [ | [] | z | s | l | d ]; simpl; try reflexivity;
    try discriminate; intros _.
  - apply Z.eqb_refl.
  - apply String.eqb_refl.
Qed.

Lemma strongly_sorted_NoDup (l : list value) :
  StronglySorted value_lt l -> NoDup l.
Proof.
  induction 1 as [ | a l Hs IH Hall ]; constructor; [ | exact IH ].
  intros Hin. rewrite Forall_forall in Hall.
  apply (value_lt_irrefl a), Hall, Hin.
Qed.

(** ** [sorted] *)

Lemma insert_sorted_spec (x : value) (l : list value) :
  forall r,
    insert_sorted x l = Some r ->
    StronglySorted value_lt l ->
    Forall (fun y => py_eq x y = false) l ->
    StronglySorted value_lt r /\ Permutation r (x :: l).
Proof.
  induction l as [ | y l IH ]; intros r; simpl.
  - intros [= <-] _ _. split; [ | reflexivity ].
    constructor; constructor.
  - destruct (py_lt x y) as [ [] | ] eqn:Hxy; [ | | discriminate ].
    + intros [= <-] Hs _. split; [ | reflexivity ].
      constructor; [ exact Hs | ].
      constructor; [ exact Hxy | ].
      apply StronglySorted_inv in Hs as [_ Hall].
      eapply Forall_impl; [ | exact Hall ].
      intros z Hz. exact (value_lt_trans x y z Hxy Hz).
    + destruct (insert_sorted x l) as [ r' | ] eqn:Hr; [ | discriminate ].
      intros [= <-] Hs Hd.
      apply StronglySorted_inv in Hs as [Hs Hall].
      apply Forall_cons_iff in Hd as [Hd1 Hd].
      destruct (IH r' eq_refl Hs Hd) as [Hs' Hp].
      split.
      * constructor; [ exact Hs' | ].
        rewrite Forall_forall in Hall |- *. intros z Hz.
        apply (Permutation_in _ Hp) in Hz. destruct Hz as [ <- | Hz ].
        -- exact (value_lt_total x y Hxy Hd1).
        -- apply Hall, Hz.
      * rewrite Hp. apply perm_swap.
Qed.

Lemma fold_left_none {A B : Type} (f : B -> A -> option B) (l : list A) :
  fold_left (fun acc x => match acc with
                          | Some s => f s x
                          | None => None
                          end) l None = None.
Proof. induction l as [ | x l IH ]; simpl; [ reflexivity | exact IH ]. Qed.

Lemma distinct_members_snoc (s : list value) (v : value) :
  distinct_members s -> Forall (fun e => py_eq v e = false) s ->
  distinct_members (s ++ [v]).
Proof.
  unfold distinct_members. induction 1 as [ | a l Ha Hl IH ]; simpl.
  - intros _. constructor; constructor.
  - intros Hv. apply Forall_cons_iff in Hv as [Hva Hv].
    constructor; [ | apply IH, Hv ].
    apply Forall_app. split; [ exact Ha | ].
    constructor; [ exact Hva | constructor ].
Qed.

Lemma distinct_members_split (s1 s2 : list value) (x : value) :
  distinct_members (s1 ++ x :: s2) -> Forall (fun e => py_eq x e = false) s1.
Proof.
  unfold distinct_members. induction s1 as [ | a s1 IH ]; simpl.
  - constructor.
  - intros H. inversion H as [ | a' l' Ha Hl ]; subst.
    constructor; [ | apply IH, Hl ].
    rewrite Forall_forall in Ha. apply Ha.
    apply in_or_app. right. left. reflexivity.
Qed.

Lemma py_sorted_fold (l : list value) :
  forall seen acc r,
    fold_left (fun acc x => match acc with
                            | Some s => insert_sorted x s
                            | None => None
                            end) l (Some acc) = Some r ->
    StronglySorted value_lt acc ->
    Permutation acc seen ->
    distinct_members (seen ++ l) ->
    StronglySorted value_lt r /\ Permutation r (seen ++ l).
Proof.
  induction l as [ | x l IH ]; intros seen acc r; simpl.
  - intros [= <-] Hs Hp _. rewrite app_nil_r. auto.
  - destruct (insert_sorted x acc) as [ acc' | ] eqn:Hins.
    2:{ rewrite fold_left_none. discriminate. }
    intros Hf Hs Hp Hd.
    assert (Hx : Forall (fun y => py_eq x y = false) acc).
    { apply distinct_members_split in Hd.
      rewrite Forall_forall in Hd |- *. intros y Hy.
      apply Hd. apply (Permutation_in _ Hp), Hy. }
    destruct (insert_sorted_spec x acc acc' Hins Hs Hx) as [Hs' Hp'].
    destruct (IH (seen ++ [x]) acc' r Hf Hs') as [Hr Hpr].
    + rewrite Hp', Hp. apply Permutation_cons_append.
    + rewrite <- app_assoc. exact Hd.
    + split; [ exact Hr | ]. rewrite <- app_assoc in Hpr. exact Hpr.
Qed.

Lemma py_sorted_spec (s r : list value) :
  py_sorted s = Some r -> distinct_members s ->
  StronglySorted value_lt r /\ Permutation r s.
Proof.
  intros H Hd. apply (py_sorted_fold s [] [] r H).
  - constructor.
  - reflexivity.
  - exact Hd.
Qed.

(** Members of one comparable kind: the sort returns. *)
Lemma insert_sorted_total (P : value -> bool) (x : value) (l : list value) :
  (forall a b, P a = true -> P b = true -> py_lt a b <> None) ->
  P x = true -> forallb P l = true ->
  exists r, insert_sorted x l = Some r /\ forallb P r = true.
Proof.
  intros HP Hx. induction l as [ | y l IH ]; simpl.
  - intros _. exists [x]. simpl. rewrite Hx. auto.
  - intros H. apply andb_true_iff in H as [Hy Hl].
    destruct (py_lt x y) as [ [] | ] eqn:E.
    + exists (x :: y :: l). simpl. rewrite Hx, Hy, Hl. auto.
    + destruct (IH Hl) as (r & Hr & HPr). rewrite Hr.
      exists (y :: r). simpl. rewrite Hy, HPr. auto.
    + exfalso. exact (HP x y Hx Hy E).
Qed.

Lemma py_sorted_total (P : value -> bool) (l : list value) :
  (forall a b, P a = true -> P b = true -> py_lt a b <> None) ->
  forallb P l = true ->
  exists r, py_sorted l = Some r.
Proof.
  intros HP. unfold py_sorted.
  assert (G : forall acc, forallb P acc = true -> forallb P l = true ->
              exists r, fold_left (fun acc x => match acc with
                                              | Some s => insert_sorted x s
                                              | None => None
                                              end) l (Some acc) = Some r).
  { induction l as [ | x l IH ]; intros acc Hacc; simpl.
    - intros _. eauto.
    - intros H. apply andb_true_iff in H as [Hx Hl].
      destruct (insert_sorted_total P x acc HP Hx Hacc) as (r & -> & Hr).
      apply IH; assumption. }
  apply G. reflexivity.
Qed.

Lemma is_num_comparable (a b : value) :
  is_num a = true -> is_num b = true -> py_lt a b <> None.
Proof.
  unfold is_num, py_lt.
  destruct (num_of a); [ | discriminate ].
  destruct (num_of b); [ | discriminate ]. discriminate.
Qed.

Lemma is_str_comparable (a b : value) :
  is_str a = true -> is_str b = true -> py_lt a b <> None.
Proof. destruct a; try discriminate. destruct b; discriminate. Qed.

(** ** Set comprehensions *)

Lemma py_set_fold (l : list value) :
  forall s0 s,
    fold_left (fun acc v => match acc with
                            | Some s => set_add s v
                            | None => None
                            end) l (Some s0) = Some s ->
    distinct_members s0 ->
    distinct_members s
    /\ (forall v, In v s -> In v s0 \/ In v l)
    /\ (forall v, In v s0 -> In v s)
    /\ (forall v, In v l -> exists w, In w s /\ py_eq v w = true).
Proof.
  induction l as [ | x l IH ]; intros s0 s; simpl.
  - intros [= <-] Hd. repeat split; auto. intros v [].
  - unfold set_add at 2. destruct (hashable x) eqn:Hh.
    2:{ rewrite fold_left_none. discriminate. }
    destruct (existsb (py_eq x) s0) eqn:Hex; intros Hf Hd.
    + destruct (IH s0 s Hf Hd) as (D & Sub & Mono & Cov).
      repeat split; auto.
      * intros v Hv. destruct (Sub v Hv); auto.
      * intros v [ <- | Hv ]; [ | auto ].
        apply existsb_exists in Hex as (w & Hw & E). exists w. auto.
    + assert (Hd' : distinct_members (s0 ++ [x])).
      { apply distinct_members_snoc; [ exact Hd | ].
        rewrite Forall_forall. intros e He.
        destruct (py_eq x e) eqn:E; [ | reflexivity ].
        assert (existsb (py_eq x) s0 = true)
          by (apply existsb_exists; exists e; auto).
        congruence. }
      destruct (IH (s0 ++ [x]) s Hf Hd') as (D & Sub & Mono & Cov).
      repeat split; auto.
      * intros v Hv. destruct (Sub v Hv) as [ H | H ]; auto.
        apply in_app_or in H as [ H | [ <- | [] ] ]; auto.
      * intros v Hv. apply Mono, in_or_app. auto.
      * intros v [ <- | Hv ]; [ | auto ].
        exists x. split; [ | apply py_eq_refl_hashable, Hh ].
        apply Mono, in_or_app. right. left. reflexivity.
Qed.

Lemma py_set_spec (l s : list value) :
  py_set l = Some s ->
  distinct_members s
  /\ (forall v, In v s -> In v l)
  /\ (forall v, In v l -> exists w, In w s /\ py_eq v w = true).
Proof.
  intros H. destruct (py_set_fold l [] s H) as (D & Sub & _ & Cov).
  - constructor.
  - repeat split; auto. intros v Hv. destruct (Sub v Hv) as [ [] | ]; auto.
Qed.

Lemma py_set_total (P : value -> bool) (l : list value) :
  (forall v, P v = true -> hashable v = true) ->
  forallb P l = true ->
  exists s, py_set l = Some s /\ forallb P s = true.
Proof.
  intros HP. unfold py_set.
  assert (G : forall s0, forallb P s0 = true -> forallb P l = true ->
              exists s, fold_left (fun acc v => match acc with
                                              | Some s => set_add s v
                                              | None => None
                                              end) l (Some s0) = Some s
                        /\ forallb P s = true).
  { induction l as [ | x l IH ]; intros s0 Hs0; simpl.
    - intros _. eauto.
    - intros H. apply andb_true_iff in H as [Hx Hl].
      unfold set_add at 2. rewrite (HP x Hx).
      apply IH; [ | exact Hl ].
      destruct (existsb (py_eq x) s0); [ exact Hs0 | ].
      rewrite forallb_app. simpl. rewrite Hs0, Hx. reflexivity. }
  apply G. reflexivity.
Qed.

(** ** The filter engine: topics and grades *)

Lemma sorted_set_spec (l s r : list value) :
  py_set l = Some s -> py_sorted s = Some r ->
  StronglySorted value_lt r /\ NoDup r
  /\ (forall v, In v r -> In v l)
  /\ (forall v, In v l -> exists w, In w r /\ py_eq v w = true).
Proof.
  intros Hs Hr.
  destruct (py_set_spec l s Hs) as (D & Sub & Cov).
  destruct (py_sorted_spec s r Hr D) as [Sorted Perm].
  split; [ exact Sorted | ].
  split; [ apply strongly_sorted_NoDup, Sorted | ].
  split.
  - intros v Hv. apply Sub. apply (Permutation_in _ Perm), Hv.
  - intros v Hv. destruct (Cov v Hv) as (w & Hw & E).
    exists w. split; [ | exact E ].
    apply (Permutation_in _ (Permutation_sym Perm)), Hw.
Qed.

Lemma sorted_set_total (P : value -> bool) (l : list value) :
  (forall v, P v = true -> hashable v = true) ->
  (forall a b, P a = true -> P b = true -> py_lt a b <> None) ->
  forallb P l = true ->
  exists s r, py_set l = Some s /\ py_sorted s = Some r.
Proof.
  intros Hh Hc Hl.
  destruct (py_set_total P l Hh Hl) as (s & Hs & HPs).
  destruct (py_sorted_total P s Hc HPs) as (r & Hr).
  exists s, r. auto.
Qed.

Lemma is_str_hashable (v : value) : is_str v = true -> hashable v = true.
Proof. destruct v; simpl; congruence. Qed.

Lemma is_num_hashable (v : value) : is_num v = true -> hashable v = true.
Proof. destruct v; unfold is_num; simpl; congruence. Qed.

Lemma topic_values_strings (blocks : list block) :
  topics_are_strings blocks = true ->
  forallb is_str (topic_values blocks) = true.
Proof.
  unfold topics_are_strings, topic_values, dict_get_default.
  induction blocks as [ | b blocks IH ]; simpl; [ reflexivity | ].
  intros H. apply andb_true_iff in H as [Hb Hl]. rewrite (IH Hl).
  destruct (dict_lookup (b_fields b) "topic"); [ rewrite Hb | ]; reflexivity.
Qed.

Lemma grade_values_declared (blocks : list block) (g : value) :
  In g (grade_values blocks) <->
  exists b, In b blocks /\ dict_lookup (b_fields b) "grade" = Some g.
Proof.
  unfold grade_values. rewrite in_map_iff. split.
  - intros (b & Hg & Hb). apply filter_In in Hb as [Hb Hhas].
    exists b. split; [ exact Hb | ].
    unfold dict_has in Hhas. unfold dict_get_default in Hg.
    destruct (dict_lookup (b_fields b) "grade"); congruence.
  - intros (b & Hb & Hg). exists b. split.
    + unfold dict_get_default. rewrite Hg. reflexivity.
    + apply filter_In. split; [ exact Hb | ].
      unfold dict_has. rewrite Hg. reflexivity.
Qed.

(** What [get_topics_and_grades] returns, whenever it returns. *)
Lemma get_topics_and_grades_returned (blocks : list block)
    (topics grades : list value) :
  get_topics_and_grades blocks = Some (topics, grades) ->
  StronglySorted value_lt topics /\ NoDup topics
  /\ StronglySorted value_lt grades /\ NoDup grades
  /\ (forall g, In g grades ->
        exists b, In b blocks /\ dict_lookup (b_fields b) "grade" = Some g)
  /\ (forall b g, In b blocks -> dict_lookup (b_fields b) "grade" = Some g ->
        exists g', In g' grades /\ py_eq g g' = true)
  /\ ((exists b, In b blocks /\ dict_has (b_fields b) "topic" = false) ->
      In (VStr "General") topics).
Proof.
  unfold get_topics_and_grades.
  destruct (py_set (topic_values blocks)) as [ ts | ] eqn:Ets;
    [ | discriminate ].
  destruct (py_sorted ts) as [ topics' | ] eqn:Etopics; [ | discriminate ].
  destruct (py_set (grade_values blocks)) as [ gs | ] eqn:Egs;
    [ | discriminate ].
  destruct (py_sorted gs) as [ grades' | ] eqn:Egrades; [ | discriminate ].
  intros [= <- <-].
  destruct (sorted_set_spec _ _ _ Ets Etopics) as (St & Nt & _ & Ct).
  destruct (sorted_set_spec _ _ _ Egs Egrades) as (Sg & Ng & Subg & Cg).
  repeat (split; [ assumption | ]).
  split; [ | split ].
  - intros g Hg. apply grade_values_declared, Subg, Hg.
  - intros b g Hb Hg. apply Cg. apply grade_values_declared. eauto.
  - intros (b & Hb & Hno).
    destruct (Ct (VStr "General")) as (w & Hw & E).
    + unfold topic_values. apply in_map_iff. exists b. split; [ | exact Hb ].
      unfold dict_has in Hno. unfold dict_get_default.
      destruct (dict_lookup (b_fields b) "topic");
        [ discriminate | reflexivity ].
    + apply py_eq_str_l in E. subst w. exact Hw.
Qed.

(** C8.  On blocks whose topics are strings and whose grades are all numbers
    or all strings, [get_topics_and_grades] returns two lists, each strictly
    ascending (so sorted and without duplicates); every grade listed is the
    [grade] member of a block that has one, every such member is listed (up
    to equality), and ["General"] is among the topics whenever a block has
    no [topic] member. *)
Theorem get_topics_and_grades_sorted (blocks : list block) :
  topics_are_strings blocks = true ->
  grades_are_comparable blocks = true ->
  exists topics grades,
    get_topics_and_grades blocks = Some (topics, grades)
    /\ StronglySorted value_lt topics /\ NoDup topics
    /\ StronglySorted value_lt grades /\ NoDup grades
    /\ (forall g, In g grades ->
          exists b, In b blocks /\ dict_lookup (b_fields b) "grade" = Some g)
    /\ (forall b g, In b blocks -> dict_lookup (b_fields b) "grade" = Some g ->
          exists g', In g' grades /\ py_eq g g' = true)
    /\ ((exists b, In b blocks /\ dict_has (b_fields b) "topic" = false) ->
        In (VStr "General") topics).
Proof.
  intros Ht Hg.
  assert (E : exists topics grades,
             get_topics_and_grades blocks = Some (topics, grades)).
  { unfold get_topics_and_grades.
    destruct (sorted_set_total is_str (topic_values blocks)
                is_str_hashable is_str_comparable
                (topic_values_strings blocks Ht)) as (ts & topics & -> & ->).
    unfold grades_are_comparable in Hg. apply orb_true_iff in Hg as [ Hg | Hg ].
    - destruct (sorted_set_total is_num (grade_values blocks)
                  is_num_hashable is_num_comparable Hg)
        as (gs & grades & -> & ->). eauto.
    - destruct (sorted_set_total is_str (grade_values blocks)
                  is_str_hashable is_str_comparable Hg)
        as (gs & grades & -> & ->). eauto. }
  destruct E as (topics & grades & E).
  exists topics, grades. split; [ exact E | ].
  apply (get_topics_and_grades_returned blocks topics grades E).
Qed.

Lemma get_topics_and_grades_sorted_witness :
  let blocks :=
    [mk_block [("subject", VStr "Math"); ("topic", VStr "Geometry");
               ("grade", VInt 8)] (Some []);
     mk_block [("subject", VStr "Math"); ("grade", VInt 7)] None;
     mk_block [("subject", VStr "Math"); ("topic", VStr "Algebra")] (Some []);
     mk_block [("subject", VStr "Math"); ("topic", VStr "Geometry");
               ("grade", VInt 7)] (Some [])] in
  get_topics_and_grades blocks
  = Some ([VStr "Algebra"; VStr "General"; VStr "Geometry"], [VInt 7; VInt 8])
  /\ exists topics grades,
       get_topics_and_grades blocks = Some (topics, grades)
       /\ StronglySorted value_lt topics /\ NoDup topics
       /\ StronglySorted value_lt grades /\ NoDup grades
       /\ (forall g, In g grades ->
             exists b, In b blocks /\ dict_lookup (b_fields b) "grade" = Some g)
       /\ (forall b g, In b blocks ->
             dict_lookup (b_fields b) "grade" = Some g ->
             exists g', In g' grades /\ py_eq g g' = true)
       /\ ((exists b, In b blocks /\ dict_has (b_fields b) "topic" = false) ->
           In (VStr "General") topics).
Proof.
  intros blocks. split; [ reflexivity | ].
  apply (get_topics_and_grades_sorted blocks); reflexivity.
Defined.

(** Grades of two kinds cannot be sorted: the call raises. *)
Example mixed_grades_raise :
  get_topics_and_grades
    [mk_block [("subject", VStr "Math"); ("grade", VInt 7)] None;
     mk_block [("subject", VStr "Math"); ("grade", VStr "7th")] None]
  = None.
Proof. reflexivity. Qed.

(** ** [random.sample] and [random.shuffle] *)

Section RandomFacts.

Context {A : Type}.

Lemma length_list_set (i : nat) (x : A) (l : list A) :
  List.length (list_set i x l) = List.length l.
Proof.
  revert i. induction l as [ | y l IH ]; intros [ | i ]; simpl; auto.
Qed.

Lemma in_list_set (i : nat) (x y : A) (l : list A) :
  In y (list_set i x l) -> y = x \/ In y l.
Proof.
  revert i. induction l as [ | z l IH ]; intros [ | i ]; simpl; auto.
  - intros [ <- | H ]; auto.
  - intros [ <- | H ]; auto. destruct (IH i H); auto.
Qed.

Lemma length_removelast (l : list A) :
  List.length (removelast l) = List.length l - 1.
Proof.
  induction l as [ | x [ | y l ] IH ]; simpl in *; auto. rewrite IH. lia.
Qed.

Lemma in_removelast (x : A) (l : list A) : In x (removelast l) -> In x l.
Proof.
  induction l as [ | y [ | z l ] IH ]; simpl in *; auto.
  intros [ <- | H ]; auto.
Qed.

Lemma in_last (l : list A) (d : A) : l <> [] -> In (last l d) l.
Proof.
  induction l as [ | x [ | y l ] IH ]; intros H.
  - congruence.
  - left. reflexivity.
  - right. apply IH. discriminate.
Qed.

Lemma randbelow_lt (n : nat) (g : rng) : 0 < n -> fst (randbelow n g) < n.
Proof.
  intros Hn. destruct g as [ | x g ]; simpl; [ exact Hn | ].
  apply Nat.mod_upper_bound. lia.
Qed.

(** A sample of [k] items of a pool of at least [k] has [k] items. *)
Lemma length_sample_loop (k : nat) :
  forall (pool : list A) (g : rng),
    k <= List.length pool ->
    List.length (fst (sample_loop k pool g)) = k.
Proof.
  induction k as [ | k IH ]; intros pool g Hk; simpl; [ reflexivity | ].
  destruct pool as [ | d pool ]; [ simpl in Hk; lia | ].
  destruct (randbelow (List.length (d :: pool)) g) as [j g1].
  destruct (sample_loop k _ g1) as [rest g2] eqn:E.
  simpl. f_equal.
  change rest with (fst (rest, g2)). rewrite <- E. apply IH.
  rewrite length_removelast, length_list_set. simpl in *. lia.
Qed.

(** Every item of a sample is an item of the pool. *)
Lemma in_sample_loop (k : nat) :
  forall (pool : list A) (g : rng) (x : A),
    In x (fst (sample_loop k pool g)) -> In x pool.
Proof.
  induction k as [ | k IH ]; intros pool g x; [ intros [] | ].
  destruct pool as [ | d pool ]; [ intros [] | ].
  cbn [sample_loop].
  remember (d :: pool) as p eqn:Ep.
  assert (Hne : p <> []) by (subst p; discriminate).
  assert (Hlen : 0 < List.length p) by (subst p; simpl; lia).
  pose proof (randbelow_lt (List.length p) g Hlen) as Hj.
  destruct (randbelow (List.length p) g) as [j g1].
  destruct (sample_loop k _ g1) as [rest g2] eqn:E.
  cbn [fst] in *. intros [ <- | Hx ].
  - apply nth_In, Hj.
  - assert (Hin : In x (fst (sample_loop k
                               (removelast (list_set j (last p d) p)) g1)))
      by (rewrite E; exact Hx).
    apply IH in Hin. apply in_removelast, in_list_set in Hin.
    destruct Hin as [ -> | Hin ]; [ | exact Hin ].
    apply in_last, Hne.
Qed.

Lemma random_sample_some (population : list A) (k : nat) (g : rng) :
  k <= List.length population ->
  random_sample population k g = Some (sample_loop k population g).
Proof.
  intros Hk. unfold random_sample.
  replace (List.length population <? k)%nat with false; [ reflexivity | ].
  symmetry. apply Nat.ltb_ge. exact Hk.
Qed.

Lemma list_set_perm (i : nat) (a b : A) (l : list A) :
  nth_error l i = Some a -> Permutation (a :: list_set i b l) (b :: l).
Proof.
  revert i. induction l as [ | x l IH ]; intros [ | i ]; simpl;
    try discriminate.
  - intros [= ->]. apply perm_swap.
  - intros H.
    apply (perm_trans (perm_swap x a (list_set i b l))).
    apply (perm_trans (perm_skip x (IH i H))).
    apply perm_swap.
Qed.

Lemma nth_error_list_set_other (i j : nat) (b : A) (l : list A) :
  i <> j -> nth_error (list_set i b l) j = nth_error l j.
Proof.
  revert i j. induction l as [ | x l IH ]; intros [ | i ] [ | j ] H; simpl;
    try reflexivity; try congruence.
  apply IH. congruence.
Qed.

Lemma list_set_same (i : nat) (a : A) (l : list A) :
  nth_error l i = Some a -> list_set i a l = l.
Proof.
  revert i. induction l as [ | x l IH ]; intros [ | i ]; simpl;
    try discriminate.
  - intros [= ->]. reflexivity.
  - intros H. rewrite (IH i H). reflexivity.
Qed.

Lemma list_set_twice (i : nat) (a b : A) (l : list A) :
  list_set i a (list_set i b l) = list_set i a l.
Proof.
  revert i. induction l as [ | x l IH ]; intros [ | i ]; simpl;
    try reflexivity.
  rewrite IH. reflexivity.
Qed.

Lemma swap_perm (i j : nat) (x : list A) : Permutation (swap i j x) x.
Proof.
  unfold swap.
  destruct (nth_error x i) as [ a | ] eqn:Ei; [ | reflexivity ].
  destruct (nth_error x j) as [ b | ] eqn:Ej; [ | reflexivity ].
  destruct (Nat.eq_dec i j) as [ -> | Hij ].
  - rewrite Ei in Ej. injection Ej as <-.
    rewrite list_set_twice, (list_set_same _ _ _ Ei). reflexivity.
  - apply (Permutation_cons_inv (a := b)).
    rewrite <- (list_set_perm i a b x Ei).
    apply list_set_perm.
    rewrite nth_error_list_set_other by exact Hij. exact Ej.
Qed.

Lemma shuffle_loop_perm (i : nat) :
  forall (x : list A) (g : rng), Permutation (fst (shuffle_loop i x g)) x.
Proof.
  induction i as [ | i IH ]; intros x g; [ reflexivity | ].
  cbn [shuffle_loop].
  destruct (randbelow (S (S i)) g) as [j g1].
  rewrite IH. apply swap_perm.
Qed.

(** A shuffle rearranges the list and nothing else. *)
Lemma random_shuffle_perm (x : list A) (g : rng) :
  Permutation (fst (random_shuffle x g)) x.
Proof. apply shuffle_loop_perm. Qed.

End RandomFacts.

(** ** The session builder *)

Lemma groups_get_append (tg : type_groups) (k : value) (q : dict) (t : string) :
  groups_get (groups_append tg k q) (VStr t)
  = if py_eq k (VStr t) then groups_get tg (VStr t) ++ [q]
    else groups_get tg (VStr t).
Proof.
  induction tg as [ | [k' l] tg IH ]; simpl.
  - destruct (py_eq k (VStr t)); reflexivity.
  - destruct (py_eq k' k) eqn:Ek; simpl.
    + destruct (py_eq k' (VStr t)) eqn:Et.
      * apply py_eq_str_r in Et. subst k'.
        apply py_eq_str_l in Ek. subst k.
        simpl. rewrite String.eqb_refl. reflexivity.
      * destruct (py_eq k (VStr t)) eqn:Ekt; [ | reflexivity ].
        apply py_eq_str_r in Ekt. subst k. congruence.
    + destruct (py_eq k' (VStr t)) eqn:Et; [ | exact IH ].
      apply py_eq_str_r in Et. subst k'.
      destruct (py_eq k (VStr t)) eqn:Ekt; [ | reflexivity ].
      apply py_eq_str_r in Ekt. subst k.
      simpl in Ek. rewrite String.eqb_refl in Ek. discriminate.
Qed.

Lemma group_by_type_fold (selected : list dict) (t : string) :
  forall tg0 tg,
    fold_left
      (fun acc q => match acc with
                    | Some tg => setdefault_append tg (question_type q) q
                    | None => None
                    end) selected (Some tg0) = Some tg ->
    groups_get tg (VStr t)
    = groups_get tg0 (VStr t)
      ++ filter (fun q => py_eq (question_type q) (VStr t)) selected.
Proof.
  induction selected as [ | q sel IH ]; intros tg0 tg; simpl.
  - intros [= <-]. rewrite app_nil_r. reflexivity.
  - unfold setdefault_append at 2.
    destruct (hashable (question_type q)).
    2:{ rewrite fold_left_none. discriminate. }
    intros H. rewrite (IH _ _ H), groups_get_append.
    destruct (py_eq (question_type q) (VStr t)); [ | reflexivity ].
    rewrite <- app_assoc. reflexivity.
Qed.

(** After grouping, the group of a type holds the sampled questions of that
    type, in sample order. *)
Lemma group_by_type_get (selected : list dict) (tg : type_groups) (t : string) :
  group_by_type selected = Some tg ->
  groups_get tg (VStr t)
  = filter (fun q => py_eq (question_type q) (VStr t)) selected.
Proof. intros H. apply (group_by_type_fold selected t [] tg H). Qed.

Lemma group_by_type_total (selected : list dict) :
  Forall (fun q => hashable (question_type q) = true) selected ->
  exists tg, group_by_type selected = Some tg.
Proof.
  unfold group_by_type. generalize (@nil (value * list dict)).
  induction selected as [ | q sel IH ]; intros tg0 H; simpl; [ eauto | ].
  apply Forall_cons_iff in H as [Hq Hsel].
  unfold setdefault_append at 2. rewrite Hq. apply IH, Hsel.
Qed.

Lemma shuffle_groups_get (tg : type_groups) :
  forall (g : rng) (k : value),
    Permutation (groups_get (fst (shuffle_groups tg g)) k) (groups_get tg k).
Proof.
  induction tg as [ | [k' l] tg IH ]; intros g k; simpl; [ reflexivity | ].
  pose proof (random_shuffle_perm l g) as Hl.
  destruct (random_shuffle l g) as [l' g1].
  specialize (IH g1 k).
  destruct (shuffle_groups tg g1) as [tg'' g2].
  simpl in *. destruct (py_eq k' k); assumption.
Qed.

Lemma flatten_groups_eq (tg : type_groups) :
  flatten_groups tg
  = groups_get tg (VStr "multiple_choice")
    ++ groups_get tg (VStr "true_false")
    ++ groups_get tg (VStr "short_answer")
    ++ groups_get tg (VStr "fill_blank")
    ++ groups_get tg (VStr "unknown").
Proof.
  unfold flatten_groups, type_order. simpl.
  rewrite <- !app_assoc. reflexivity.
Qed.

Lemma collected_have_type (blocks : list block) (t g : value) (q : dict) :
  In q (collect_questions_from_blocks blocks t g) ->
  has_required_fields q = true /\ question_type q = dict_get q "type".
Proof.
  rewrite collect_questions_eq. unfold all_valid_questions.
  rewrite in_flat_map. intros (b & _ & Hq).
  apply filter_In in Hq as [_ Hv]. split; [ exact Hv | ].
  unfold has_required_fields in Hv.
  apply andb_true_iff in Hv as [Hv _]. apply andb_true_iff in Hv as [Ht _].
  unfold dict_has in Ht.
  unfold question_type, dict_get, dict_get_default.
  destruct (dict_lookup q "type"); [ reflexivity | discriminate ].
Qed.

(** The steps of a press of Start Quiz that stores a session. *)
Lemma start_quiz_started (st : session_state) (blocks : list block)
    (subject chosen_topic chosen_grade : value) (g : rng) :
  let pool := collect_questions_from_blocks blocks
                (unless_all chosen_topic) (unless_all chosen_grade) in
  snd (start_quiz st blocks subject chosen_topic chosen_grade g)
  = SessionStarted ->
  exists selected tg g1,
    pool <> []
    /\ selected = fst (sample_loop (Nat.min 10 (List.length pool)) pool g)
    /\ group_by_type selected = Some tg
    /\ quiz_questions
         (fst (start_quiz st blocks subject chosen_topic chosen_grade g))
       = flatten_groups (fst (shuffle_groups tg g1)).
Proof.
  intros pool. unfold start_quiz. fold pool.
  destruct pool as [ | q0 rest ] eqn:Epool; [ discriminate | ].
  rewrite random_sample_some by apply Nat.le_min_r.
  destruct (sample_loop _ _ g) as [selected g1] eqn:Es.
  destruct (group_by_type selected) as [ tg | ] eqn:Etg; [ | discriminate ].
  destruct (shuffle_groups tg g1) as [tg' g2] eqn:Esh.
  intros _. exists selected, tg, g1.
  rewrite Esh. simpl. repeat split; auto. discriminate.
Qed.

Lemma session_group_members (pool selected : list dict) (tg : type_groups)
    (g g1 : rng) (k : nat) (t : string)
    (blocks : list block) (ft fg : value) :
  pool = collect_questions_from_blocks blocks ft fg ->
  selected = fst (sample_loop k pool g) ->
  group_by_type selected = Some tg ->
  Forall (fun q => dict_get q "type" = VStr t)
         (groups_get (fst (shuffle_groups tg g1)) (VStr t)).
Proof.
  intros Hpool Hsel Htg. rewrite Forall_forall. intros q Hq.
  apply (Permutation_in _ (shuffle_groups_get tg g1 (VStr t))) in Hq.
  rewrite (group_by_type_get selected tg t Htg) in Hq.
  apply filter_In in Hq as [Hin Hty].
  apply py_eq_str_r in Hty.
  rewrite Hsel in Hin. apply in_sample_loop in Hin. rewrite Hpool in Hin.
  apply collected_have_type in Hin as [_ E]. congruence.
Qed.

(** C3.  A press of Start Quiz on a non-empty pool whose types are hashable
    stores a session, and the questions of every session stored are five
    runs (multiple_choice, true_false, short_answer, fill_blank, unknown, in
    that order; a run may be empty), whatever the random draws were. *)
Theorem start_quiz_grouped (st : session_state) (blocks : list block)
    (subject chosen_topic chosen_grade : value) (g : rng) :
  let pool := collect_questions_from_blocks blocks
                (unless_all chosen_topic) (unless_all chosen_grade) in
  let r := start_quiz st blocks subject chosen_topic chosen_grade g in
  (pool <> [] ->
   Forall (fun q => hashable (dict_get q "type") = true) pool ->
   snd r = SessionStarted)
  /\ (snd r = SessionStarted -> in_type_order (quiz_questions (fst r))).
Proof.
  intros pool r. split.
  - intros Hne Hh. unfold r, start_quiz. fold pool.
    destruct pool as [ | q0 rest ] eqn:Epool; [ congruence | ].
    rewrite random_sample_some by apply Nat.le_min_r.
    destruct (sample_loop _ _ g) as [selected g1] eqn:Es.
    destruct (group_by_type_total selected) as (tg & ->).
    { rewrite Forall_forall in Hh |- *. intros q Hq.
      assert (Hin : In q (q0 :: rest)).
      { apply (in_sample_loop (Nat.min 10 (List.length (q0 :: rest))) _ g).
        rewrite Es. exact Hq. }
      rewrite <- (Hh q Hin). f_equal.
      rewrite <- Epool in Hin. apply collected_have_type in Hin as [_ E].
      exact E. }
    destruct (shuffle_groups tg g1). reflexivity.
  - intros Hs.
    destruct (start_quiz_started st blocks subject chosen_topic chosen_grade
                g Hs) as (selected & tg & g1 & _ & Hsel & Htg & Hq).
    unfold r. rewrite Hq, flatten_groups_eq.
    exists (groups_get (fst (shuffle_groups tg g1)) (VStr "multiple_choice")),
           (groups_get (fst (shuffle_groups tg g1)) (VStr "true_false")),
           (groups_get (fst (shuffle_groups tg g1)) (VStr "short_answer")),
           (groups_get (fst (shuffle_groups tg g1)) (VStr "fill_blank")),
           (groups_get (fst (shuffle_groups tg g1)) (VStr "unknown")).
    split; [ reflexivity | ].
    repeat split;
      eapply session_group_members; try exact Hsel; try exact Htg; reflexivity.
Qed.

Lemma start_quiz_grouped_witness :
  let r := start_quiz initial_session example_blocks (VStr "English")
                      (VStr "Verbs") (VStr "All") [3; 1; 4; 1; 5; 9; 2; 6] in
  snd r = SessionStarted /\ in_type_order (quiz_questions (fst r)).
Proof.
  intros r.
  pose proof (start_quiz_grouped initial_session example_blocks
                (VStr "English") (VStr "Verbs") (VStr "All")
                [3; 1; 4; 1; 5; 9; 2; 6]) as [Hstart Hgrouped].
  split.
  - apply Hstart.
    + vm_compute. discriminate.
    + vm_compute. repeat constructor.
  - apply Hgrouped. reflexivity.
Defined.

(** ** The length of a session *)

Lemma length_known_filters (selected : list dict) :
  Forall (fun q => known_type q = true) selected ->
  List.length
    (filter (fun q => py_eq (question_type q) (VStr "multiple_choice"))
            selected)
  + (List.length
       (filter (fun q => py_eq (question_type q) (VStr "true_false"))
               selected)
     + (List.length
          (filter (fun q => py_eq (question_type q) (VStr "short_answer"))
                  selected)
        + (List.length
             (filter (fun q => py_eq (question_type q) (VStr "fill_blank"))
                     selected)
           + List.length
               (filter (fun q => py_eq (question_type q) (VStr "unknown"))
                       selected))))
  = List.length selected.
Proof.
  induction 1 as [ | q sel Hq Hsel IH ]; [ reflexivity | ].
  cbn [filter]. unfold known_type, type_order in Hq. cbn [existsb] in Hq.
  repeat (apply orb_true_iff in Hq as [ Hq | Hq ]);
    try discriminate Hq;
    apply py_eq_str_r in Hq; rewrite Hq; cbn -[filter List.length];
    cbn [List.length]; lia.
Qed.

(** With every type of the pool among the five of [type_order], the session
    stored has [min(10, |pool|)] questions. *)
Lemma start_quiz_length_known_types (st : session_state) (blocks : list block)
    (subject chosen_topic chosen_grade : value) (g : rng) :
  let pool := collect_questions_from_blocks blocks
                (unless_all chosen_topic) (unless_all chosen_grade) in
  let r := start_quiz st blocks subject chosen_topic chosen_grade g in
  snd r = SessionStarted ->
  Forall (fun q => known_type q = true) pool ->
  List.length (quiz_questions (fst r)) = Nat.min 10 (List.length pool).
Proof.
  intros pool r Hs Hk.
  destruct (start_quiz_started st blocks subject chosen_topic chosen_grade
              g Hs) as (selected & tg & g1 & _ & Hsel & Htg & Hq).
  unfold r. rewrite Hq, flatten_groups_eq, !length_app.
  rewrite !(Permutation_length (shuffle_groups_get tg g1 _)).
  rewrite !(group_by_type_get selected tg _ Htg).
  rewrite length_known_filters.
  - rewrite Hsel. apply length_sample_loop, Nat.le_min_r.
  - rewrite Forall_forall in Hk |- *. intros q Hin. apply Hk.
    rewrite Hsel in Hin. apply in_sample_loop in Hin. exact Hin.
Qed.

(** The session never has more questions than [min(10, |pool|)]. *)
Lemma start_quiz_length_le (st : session_state) (blocks : list block)
    (subject chosen_topic chosen_grade : value) (g : rng) :
  let pool := collect_questions_from_blocks blocks
                (unless_all chosen_topic) (unless_all chosen_grade) in
  let r := start_quiz st blocks subject chosen_topic chosen_grade g in
  snd r = SessionStarted ->
  exists selected,
    List.length selected = Nat.min 10 (List.length pool)
    /\ Permutation (quiz_questions (fst r)) (filter known_type selected).
Proof.
  intros pool r Hs.
  destruct (start_quiz_started st blocks subject chosen_topic chosen_grade
              g Hs) as (selected & tg & g1 & _ & Hsel & Htg & Hq).
  exists selected. split.
  - rewrite Hsel. apply length_sample_loop, Nat.le_min_r.
  - unfold r. rewrite Hq, flatten_groups_eq.
    rewrite !(shuffle_groups_get tg g1 _).
    rewrite !(group_by_type_get selected tg _ Htg).
    clear. induction selected as [ | q sel IH ]; [ reflexivity | ].
    cbn [filter]. unfold known_type at 1, type_order. cbn [existsb].
    destruct (py_eq (question_type q) (VStr "multiple_choice")) eqn:E1.
    { apply py_eq_str_r in E1. rewrite E1. cbn -[filter known_type].
      apply perm_skip, IH. }
    destruct (py_eq (question_type q) (VStr "true_false")) eqn:E2.
    { apply py_eq_str_r in E2. rewrite E2. cbn -[filter known_type].
      rewrite <- Permutation_middle. apply perm_skip, IH. }
    destruct (py_eq (question_type q) (VStr "short_answer")) eqn:E3.
    { apply py_eq_str_r in E3. rewrite E3. cbn -[filter known_type].
      rewrite !app_assoc. rewrite <- Permutation_middle.
      rewrite <- !app_assoc. apply perm_skip, IH. }
    destruct (py_eq (question_type q) (VStr "fill_blank")) eqn:E4.
    { apply py_eq_str_r in E4. rewrite E4. cbn -[filter known_type].
      rewrite !app_assoc. rewrite <- Permutation_middle.
      rewrite <- !app_assoc. apply perm_skip, IH. }
    destruct (py_eq (question_type q) (VStr "unknown")) eqn:E5.
    { cbn -[filter known_type].
      rewrite !app_assoc. rewrite <- Permutation_middle.
      rewrite <- !app_assoc. apply perm_skip, IH. }
    cbn -[filter known_type]. exact IH.
Qed.

(** C1, at a pool of one valid question whose type is none of the five:
    whatever the random draws, Start Quiz stores a session, adds one to the
    version, and the session has no question, where [min(10, |pool|)] is 1. *)
Theorem start_quiz_drops_other_types (g : rng) :
  let pool := collect_questions_from_blocks essay_blocks VNone VNone in
  let r := start_quiz initial_session essay_blocks (VStr "English")
                      (VStr "All") (VStr "All") g in
  pool = [example_question "essay" "n/a"]
  /\ forallb has_required_fields pool = true
  /\ Nat.min 10 (List.length pool) = 1
  /\ r = ({| version := 1; quiz_questions := [];
             quiz_subject := VStr "English";
             quiz_config := [("topic", VStr "All"); ("grade", VStr "All")] |},
          SessionStarted)
  /\ List.length (quiz_questions (fst r)) = 0.
Proof.
  intros pool r.
  assert (Hr : r = ({| version := 1; quiz_questions := [];
                       quiz_subject := VStr "English";
                       quiz_config := [("topic", VStr "All");
                                       ("grade", VStr "All")] |},
                    SessionStarted)).
  { unfold r. destruct g as [ | x g ]; [ reflexivity | ].
    unfold start_quiz.
    change (collect_questions_from_blocks essay_blocks
              (unless_all (VStr "All")) (unless_all (VStr "All")))
      with [example_question "essay" "n/a"].
    cbn -[Nat.modulo]. rewrite Nat.mod_1_r. reflexivity. }
  repeat split; try reflexivity; try exact Hr.
  rewrite Hr. reflexivity.
Qed.

(** ** Equality of hashable objects *)

Lemma py_eq_key (a b : value) :
  hashable a = true -> hashable b = true ->
  py_eq a b = true <-> key_of a = key_of b.
Proof.
  destruct a as [ | [] | x | s | l | d ];
    destruct b as [ | [] | y | t | l' | d' ];
    cbn [py_eq num_of key_of hashable]; intros Ha Hb;
    try discriminate Ha; try discriminate Hb;
    split; intros H; try discriminate H; try reflexivity;
    try (apply Z.eqb_eq in H; congruence);
    try (apply String.eqb_eq in H; congruence);
    try (injection H as H; try apply Z.eqb_eq; try apply String.eqb_eq;
         congruence).
Qed.

Lemma py_eq_sym_hashable (a b : value) :
  hashable a = true -> hashable b = true -> py_eq a b = py_eq b a.
Proof.
  intros Ha Hb.
  destruct (py_eq a b) eqn:E1; destruct (py_eq b a) eqn:E2; try reflexivity.
  - apply (py_eq_key a b Ha Hb) in E1. symmetry in E1.
    apply (py_eq_key b a Hb Ha) in E1. congruence.
  - apply (py_eq_key b a Hb Ha) in E2. symmetry in E2.
    apply (py_eq_key a b Ha Hb) in E2. congruence.
Qed.

Lemma py_eq_true_hashable (a b : value) :
  py_eq a b = true -> hashable a = true -> hashable b = true.
Proof.
  destruct a as [ | [] | x | s | l | d ];
    destruct b as [ | [] | y | t | l' | d' ];
    simpl; try reflexivity; try discriminate.
Qed.

(** ** The filter engine: matching blocks and the available count *)

(** The pool is the in-order concatenation of the valid questions of the
    blocks that match; a question is in it exactly when some matching block
    holds it and it has the three members. *)
Theorem collect_matching_blocks (blocks : list block) (t g : value) :
  collect_questions_from_blocks blocks t g
  = flat_map (fun b => filter has_required_fields (block_questions b))
             (filter (fun b => block_matches b t g) blocks)
  /\ (forall q,
        In q (collect_questions_from_blocks blocks t g) <->
        exists b, In b blocks /\ block_matches b t g = true
                  /\ In q (block_questions b)
                  /\ has_required_fields q = true).
Proof.
  split; [ apply collect_questions_eq | ].
  intros q. rewrite collect_questions_eq. unfold all_valid_questions.
  rewrite in_flat_map. split.
  - intros (b & Hb & Hq). apply filter_In in Hb as [Hb Hm].
    apply filter_In in Hq as [Hq Hv]. exists b. auto.
  - intros (b & Hb & Hm & Hq & Hv). exists b.
    split; apply filter_In; auto.
Qed.

(** Extraction over two lists of blocks put end to end is the two
    extractions put end to end. *)
Theorem collect_app (bs1 bs2 : list block) (t g : value) :
  collect_questions_from_blocks (bs1 ++ bs2) t g
  = collect_questions_from_blocks bs1 t g
    ++ collect_questions_from_blocks bs2 t g.
Proof.
  rewrite !collect_questions_eq. unfold all_valid_questions.
  rewrite filter_app, flat_map_app. reflexivity.
Qed.

Lemma flat_map_filter_le {A B : Type} (f : A -> list B) (p p' : A -> bool)
    (l : list A) :
  (forall x, p x = true -> p' x = true) ->
  List.length (flat_map f (filter p l))
  <= List.length (flat_map f (filter p' l)).
Proof.
  intros H. induction l as [ | x l IH ]; simpl; [ lia | ].
  destruct (p x) eqn:E.
  - rewrite (H x E). simpl. rewrite !length_app. lia.
  - destruct (p' x); simpl; [ rewrite length_app | ]; lia.
Qed.

Lemma block_matches_drop_topic (b : block) (t g : value) :
  block_matches b t g = true -> block_matches b VNone g = true.
Proof.
  unfold block_matches. intros H. apply andb_true_iff in H as [_ H].
  rewrite H. reflexivity.
Qed.

Lemma block_matches_drop_grade (b : block) (t g : value) :
  block_matches b t g = true -> block_matches b t VNone = true.
Proof.
  unfold block_matches. intros H. apply andb_true_iff in H as [H _].
  rewrite H. reflexivity.
Qed.

(** Choosing All for the topic, or for the grade, never lowers the number
    shown as available. *)
Theorem total_avail_all_is_largest (blocks : list block)
    (chosen_topic chosen_grade : value) :
  total_avail blocks chosen_topic chosen_grade
  <= total_avail blocks (VStr "All") chosen_grade
  /\ total_avail blocks chosen_topic chosen_grade
     <= total_avail blocks chosen_topic (VStr "All").
Proof.
  unfold total_avail. rewrite !collect_questions_eq.
  unfold all_valid_questions. split; apply flat_map_filter_le; intros b.
  - apply block_matches_drop_topic.
  - apply block_matches_drop_grade.
Qed.

(** ** Topics and grades: when the listing returns, and what it offers *)

Lemma py_set_hashable (l : list value) :
  forall s0 s,
    fold_left (fun acc v => match acc with
                            | Some s => set_add s v
                            | None => None
                            end) l (Some s0) = Some s ->
    forallb hashable l = true.
Proof.
  induction l as [ | x l IH ]; intros s0 s; simpl; [ reflexivity | ].
  unfold set_add at 2. destruct (hashable x).
  - intros H. apply (IH _ _ H).
  - rewrite fold_left_none. discriminate.
Qed.

Lemma py_set_all_none (l : list value) :
  forallb is_none l = true ->
  py_set l = Some [] \/ py_set l = Some [VNone].
Proof.
  unfold py_set.
  assert (G : forall s0, s0 = [] \/ s0 = [VNone] ->
              forallb is_none l = true ->
              fold_left (fun acc v => match acc with
                                      | Some s => set_add s v
                                      | None => None
                                      end) l (Some s0) = Some []
              \/ fold_left (fun acc v => match acc with
                                         | Some s => set_add s v
                                         | None => None
                                         end) l (Some s0) = Some [VNone]).
  { induction l as [ | x l IH ]; intros s0 Hs0; simpl.
    - intros _. destruct Hs0 as [ -> | -> ]; auto.
    - intros H. apply andb_true_iff in H as [Hx Hl].
      destruct x; try discriminate.
      apply IH; [ | exact Hl ].
      destruct Hs0 as [ -> | -> ]; right; reflexivity. }
  apply G. left. reflexivity.
Qed.

Lemma insert_sorted_forallb (P : value -> bool) (x : value) (l r : list value) :
  insert_sorted x l = Some r ->
  P x = true -> forallb P l = true -> forallb P r = true.
Proof.
  revert r. induction l as [ | y l IH ]; intros r; simpl.
  - intros [= <-] Hx _. simpl. rewrite Hx. reflexivity.
  - destruct (py_lt x y) as [ [] | ]; [ | | discriminate ].
    + intros [= <-] Hx H. simpl. rewrite Hx. exact H.
    + destruct (insert_sorted x l) as [ r' | ]; [ | discriminate ].
      intros [= <-] Hx H. apply andb_true_iff in H as [Hy Hl].
      simpl. rewrite Hy. apply (IH r' eq_refl Hx Hl).
Qed.

Lemma insert_sorted_nonempty (x : value) (l r : list value) :
  insert_sorted x l = Some r -> r <> [].
Proof.
  destruct l as [ | y l ]; simpl.
  - intros [= <-]. discriminate.
  - destruct (py_lt x y) as [ [] | ]; [ | | discriminate ].
    + intros [= <-]. discriminate.
    + destruct (insert_sorted x l); [ | discriminate ].
      intros [= <-]. discriminate.
Qed.

Lemma py_lt_same_kind (x y : value) :
  py_lt x y <> None ->
  (is_num x = true /\ is_num y = true) \/ (is_str x = true /\ is_str y = true).
Proof.
  intros H. destruct (py_lt x y) as [ r | ] eqn:E; [ | congruence ].
  destruct (py_lt_cases _ _ _ E) as [ (a & b & Ea & Eb & _)
                                    | (s & t & -> & -> & _) ].
  - left. unfold is_num. rewrite Ea, Eb. auto.
  - right. auto.
Qed.

Lemma num_not_str (v : value) : is_num v = true -> is_str v = true -> False.
Proof. destruct v; unfold is_num; simpl; discriminate. Qed.

(** A list that [sorted] accepts has at most one member, or numbers only,
    or strings only. *)
Lemma py_sorted_kinds (l : list value) (r : list value) :
  py_sorted l = Some r ->
  List.length l <= 1 \/ forallb is_num l = true \/ forallb is_str l = true.
Proof.
  unfold py_sorted.
  assert (G : forall seen acc,
             fold_left (fun acc x => match acc with
                                     | Some s => insert_sorted x s
                                     | None => None
                                     end) l (Some acc) = Some r ->
             (seen = [] /\ acc = [])
             \/ (exists x, seen = [x] /\ acc = [x])
             \/ (forallb is_num seen = true /\ forallb is_num acc = true
                 /\ acc <> [])
             \/ (forallb is_str seen = true /\ forallb is_str acc = true
                 /\ acc <> []) ->
             List.length (seen ++ l) <= 1
             \/ forallb is_num (seen ++ l) = true
             \/ forallb is_str (seen ++ l) = true).
  { induction l as [ | x l IH ]; intros seen acc; simpl.
    - intros _ Inv. rewrite app_nil_r.
      destruct Inv as [ [-> _] | [ (x & -> & _) | [ (H & _) | (H & _) ] ] ];
        simpl; auto.
    - destruct (insert_sorted x acc) as [ acc' | ] eqn:Hins.
      2:{ rewrite fold_left_none. discriminate. }
      intros Hf Inv.
      replace (seen ++ x :: l) with ((seen ++ [x]) ++ l)
        by (rewrite <- app_assoc; reflexivity).
      apply (IH (seen ++ [x]) acc' Hf).
      destruct Inv as [ [-> ->] | [ (y & -> & ->) | [ (Hs & Ha & Hne)
                                                  | (Hs & Ha & Hne) ] ] ].
      + simpl in Hins. injection Hins as <-. right. left. exists x. auto.
      + assert (Hk : py_lt x y <> None).
        { simpl in Hins.
          destruct (py_lt x y); [ discriminate | discriminate Hins ]. }
        apply py_lt_same_kind in Hk as [ [Hx Hy] | [Hx Hy] ].
        * right. right. left. simpl. rewrite Hx, Hy. repeat split.
          -- apply (insert_sorted_forallb is_num x [y] acc' Hins Hx).
             simpl. rewrite Hy. reflexivity.
          -- apply (insert_sorted_nonempty _ _ _ Hins).
        * right. right. right. simpl. rewrite Hx, Hy. repeat split.
          -- apply (insert_sorted_forallb is_str x [y] acc' Hins Hx).
             simpl. rewrite Hy. reflexivity.
          -- apply (insert_sorted_nonempty _ _ _ Hins).
      + destruct acc as [ | y acc ]; [ congruence | ].
        assert (Hk : py_lt x y <> None).
        { simpl in Hins.
          destruct (py_lt x y); [ discriminate | discriminate Hins ]. }
        simpl in Ha. apply andb_true_iff in Ha as [Hy Hacc].
        apply py_lt_same_kind in Hk as [ [Hx _] | [_ Hy'] ].
        2:{ destruct (num_not_str y Hy Hy'). }
        right. right. left. rewrite forallb_app. simpl. rewrite Hs, Hx.
        repeat split.
        * apply (insert_sorted_forallb is_num x (y :: acc) acc' Hins Hx).
          simpl. rewrite Hy. exact Hacc.
        * apply (insert_sorted_nonempty _ _ _ Hins).
      + destruct acc as [ | y acc ]; [ congruence | ].
        assert (Hk : py_lt x y <> None).
        { simpl in Hins.
          destruct (py_lt x y); [ discriminate | discriminate Hins ]. }
        simpl in Ha. apply andb_true_iff in Ha as [Hy Hacc].
        apply py_lt_same_kind in Hk as [ [_ Hy'] | [Hx _] ].
        1:{ destruct (num_not_str y Hy' Hy). }
        right. right. right. rewrite forallb_app. simpl. rewrite Hs, Hx.
        repeat split.
        * apply (insert_sorted_forallb is_str x (y :: acc) acc' Hins Hx).
          simpl. rewrite Hy. exact Hacc.
        * apply (insert_sorted_nonempty _ _ _ Hins).
  }
  intros H. apply (G [] [] H). left. auto.
Qed.

Lemma py_eq_kind (P : value -> bool) (v w : value) :
  P = is_none \/ P = is_num \/ P = is_str ->
  hashable v = true -> py_eq v w = true -> P w = true -> P v = true.
Proof.
  intros HP Hv E Hw.
  assert (Hhw : hashable w = true) by exact (py_eq_true_hashable v w E Hv).
  apply (py_eq_key v w Hv Hhw) in E.
  destruct HP as [ -> | [ -> | -> ] ];
    destruct v as [ | [] | x | s | l | d ];
    destruct w as [ | [] | y | t | l' | d' ];
    try discriminate; reflexivity.
Qed.

(** A set comprehension followed by [sorted] returns exactly on values of
    one kind. *)
Lemma sorted_set_returns_iff (l : list value) :
  (exists s r, py_set l = Some s /\ py_sorted s = Some r)
  <-> one_kind l = true.
Proof.
  unfold one_kind. split.
  - intros (s & r & Hs & Hr).
    pose proof (py_set_hashable l [] s Hs) as Hh.
    destruct (py_set_spec l s Hs) as (_ & Sub & Cov).
    rewrite forallb_forall in Hh.
    assert (K : forall P, P = is_none \/ P = is_num \/ P = is_str ->
                forallb P s = true -> forallb P l = true).
    { intros P HP HPs. rewrite forallb_forall in HPs |- *. intros v Hv.
      destruct (Cov v Hv) as (w & Hw & E).
      apply (py_eq_kind P v w HP (Hh v Hv) E (HPs w Hw)). }
    destruct (py_sorted_kinds s r Hr) as [ Hlen | [ Hn | Hst ] ].
    + destruct s as [ | w [ | w' s ] ]; [ | | simpl in Hlen; lia ].
      * destruct l as [ | v l ]; [ reflexivity | ].
        destruct (Cov v (or_introl eq_refl)) as (w & [] & _).
      * assert (Hw : hashable w = true)
          by (apply Hh, Sub; left; reflexivity).
        destruct w as [ | b | z | t | l' | d' ]; try discriminate Hw.
        -- rewrite (K is_none); auto.
        -- rewrite (K is_num); auto. rewrite orb_true_r. reflexivity.
        -- rewrite (K is_num); auto. rewrite orb_true_r. reflexivity.
        -- rewrite (K is_str); auto. apply orb_true_r.
    + rewrite (K is_num); auto. rewrite orb_true_r. reflexivity.
    + rewrite (K is_str); auto. apply orb_true_r.
  - intros H. apply orb_true_iff in H as [ H | H ];
      [ apply orb_true_iff in H as [ H | H ] | ].
    + destruct (py_set_all_none l H) as [ -> | -> ].
      * exists [], []. auto.
      * exists [VNone], [VNone]. auto.
    + apply (sorted_set_total is_num l is_num_hashable is_num_comparable H).
    + apply (sorted_set_total is_str l is_str_hashable is_str_comparable H).
Qed.

(** [get_topics_and_grades] returns exactly when the topics (with the
    default) are of one kind and the grades that are present are of one
    kind; on every other list of blocks it raises. *)
Theorem get_topics_and_grades_returns_iff (blocks : list block) :
  (exists topics grades,
      get_topics_and_grades blocks = Some (topics, grades))
  <-> one_kind (topic_values blocks) = true
      /\ one_kind (grade_values blocks) = true.
Proof.
  rewrite <- !sorted_set_returns_iff. unfold get_topics_and_grades. split.
  - intros (topics & grades & H).
    destruct (py_set (topic_values blocks)) as [ ts | ] eqn:E1;
      [ | discriminate ].
    destruct (py_sorted ts) as [ topics' | ] eqn:E2; [ | discriminate ].
    destruct (py_set (grade_values blocks)) as [ gs | ] eqn:E3;
      [ | discriminate ].
    destruct (py_sorted gs) as [ grades' | ] eqn:E4; [ | discriminate ].
    split; eauto.
  - intros [ (ts & topics & -> & ->) (gs & grades & -> & ->) ]. eauto.
Qed.

Lemma block_matches_own_grade (b : block) (g : value) :
  hashable g = true ->
  dict_lookup (b_fields b) "grade" = Some g ->
  block_matches b VNone (unless_all g) = true.
Proof.
  intros Hh Hg. unfold block_matches, unless_all, dict_get, dict_get_default.
  rewrite Hg. destruct (py_eq g (VStr "All")); simpl; [ reflexivity | ].
  rewrite (py_eq_refl_hashable g Hh). apply orb_true_r.
Qed.

Lemma block_matches_own_topic (b : block) (t : value) :
  hashable t = true ->
  dict_lookup (b_fields b) "topic" = Some t ->
  block_matches b (unless_all t) VNone = true.
Proof.
  intros Hh Ht. unfold block_matches, unless_all, dict_get, dict_get_default.
  rewrite Ht. destruct (py_eq t (VStr "All")); simpl; [ reflexivity | ].
  rewrite (py_eq_refl_hashable t Hh), orb_true_r. reflexivity.
Qed.

(** Every grade on offer is the grade of a block that the grade, chosen
    with the topic All, matches.  Every topic on offer is the topic of a
    block that it matches (with the grade All), or it is ["General"],
    standing for a block without topic. *)
Theorem offered_choices_have_blocks (blocks : list block)
    (topics grades : list value) :
  get_topics_and_grades blocks = Some (topics, grades) ->
  (forall g, In g grades ->
     exists b, In b blocks
               /\ dict_lookup (b_fields b) "grade" = Some g
               /\ block_matches b VNone (unless_all g) = true)
  /\ (forall t, In t topics ->
        exists b, In b blocks
                  /\ ((dict_lookup (b_fields b) "topic" = Some t
                       /\ block_matches b (unless_all t) VNone = true)
                      \/ (dict_lookup (b_fields b) "topic" = None
                          /\ t = VStr "General"))).
Proof.
  unfold get_topics_and_grades.
  destruct (py_set (topic_values blocks)) as [ ts | ] eqn:Ets;
    [ | discriminate ].
  destruct (py_sorted ts) as [ topics' | ] eqn:Etopics; [ | discriminate ].
  destruct (py_set (grade_values blocks)) as [ gs | ] eqn:Egs;
    [ | discriminate ].
  destruct (py_sorted gs) as [ grades' | ] eqn:Egrades; [ | discriminate ].
  intros [= <- <-].
  destruct (sorted_set_spec _ _ _ Ets Etopics) as (_ & _ & Subt & _).
  destruct (sorted_set_spec _ _ _ Egs Egrades) as (_ & _ & Subg & _).
  pose proof (py_set_hashable _ _ _ Ets) as Hht.
  pose proof (py_set_hashable _ _ _ Egs) as Hhg.
  rewrite forallb_forall in Hht, Hhg.
  split.
  - intros g Hg. specialize (Subg g Hg).
    destruct (proj1 (grade_values_declared blocks g) Subg) as (b & Hb & E).
    exists b. repeat split; auto.
    apply block_matches_own_grade; auto.
  - intros t Ht. specialize (Subt t Ht). pose proof (Hht t Subt) as Hh.
    unfold topic_values in Subt. apply in_map_iff in Subt as (b & E & Hb).
    exists b. split; [ exact Hb | ].
    unfold dict_get_default in E.
    destruct (dict_lookup (b_fields b) "topic") as [ v | ] eqn:El.
    + subst v. left. split; [ reflexivity | ].
      apply block_matches_own_topic; auto.
    + right. auto.
Qed.

Lemma offered_choices_have_blocks_witness :
  get_topics_and_grades english_blocks
  = Some ([VStr "Nouns"; VStr "Verbs"], [VInt 7; VInt 8])
  /\ exists b, In b english_blocks
               /\ dict_lookup (b_fields b) "grade" = Some (VInt 8)
               /\ block_matches b VNone (unless_all (VInt 8)) = true.
Proof.
  split; [ reflexivity | ].
  apply (proj1 (offered_choices_have_blocks english_blocks
                  [VStr "Nouns"; VStr "Verbs"] [VInt 7; VInt 8] eq_refl)).
  simpl. auto.
Defined.

(** ** The Start Quiz handler: all or nothing, and what a session holds *)

Lemma group_by_type_none (selected : list dict) :
  group_by_type selected = None ->
  exists q, In q selected /\ hashable (question_type q) = false.
Proof.
  unfold group_by_type. generalize (@nil (value * list dict)).
  induction selected as [ | q sel IH ]; intros tg0; simpl; [ discriminate | ].
  unfold setdefault_append at 2.
  destruct (hashable (question_type q)) eqn:Hq.
  - intros H. destruct (IH _ H) as (q' & Hin & Hh). exists q'. auto.
  - intros _. exists q. auto.
Qed.

Lemma start_quiz_all_or_nothing_cases (st : session_state)
    (blocks : list block) (subject chosen_topic chosen_grade : value)
    (g : rng) :
  let pool := collect_questions_from_blocks blocks
                (unless_all chosen_topic) (unless_all chosen_grade) in
  let r := start_quiz st blocks subject chosen_topic chosen_grade g in
  (snd r = SessionStarted /\ pool <> [])
  \/ (snd r = NoMatchingQuestions /\ pool = [])
  \/ (snd r = Raised /\ pool <> []).
Proof.
  intros pool r. unfold r, start_quiz. fold pool.
  destruct pool as [ | q0 rest ]; [ right; left; auto | ].
  destruct (random_sample _ _ g) as [ [selected g1] | ].
  2:{ right. right. split; [ reflexivity | discriminate ]. }
  destruct (group_by_type selected) as [ tg | ].
  2:{ right. right. split; [ reflexivity | discriminate ]. }
  destruct (shuffle_groups tg g1). left. split; [ reflexivity | discriminate ].
Qed.

(** A press of Start Quiz ends in one of three ways: a whole new session is
    stored (questions, subject, configuration, version plus one) from a
    non-empty pool; or the pool is empty, the warning is shown and the state
    is as before; or an exception is raised, the state is as before, and
    some question of the pool has an unhashable type. *)
Theorem start_quiz_all_or_nothing (st : session_state) (blocks : list block)
    (subject chosen_topic chosen_grade : value) (g : rng) :
  let pool := collect_questions_from_blocks blocks
                (unless_all chosen_topic) (unless_all chosen_grade) in
  let r := start_quiz st blocks subject chosen_topic chosen_grade g in
  (snd r = SessionStarted /\ pool <> []
   /\ version (fst r) = (version st + 1)%Z
   /\ quiz_subject (fst r) = subject
   /\ quiz_config (fst r) = [("topic", chosen_topic); ("grade", chosen_grade)])
  \/ (snd r = NoMatchingQuestions /\ pool = [] /\ fst r = st)
  \/ (snd r = Raised /\ fst r = st
      /\ exists q, In q pool /\ hashable (dict_get q "type") = false).
Proof.
  intros pool r. unfold r, start_quiz. fold pool.
  destruct pool as [ | q0 rest ] eqn:Epool.
  { right. left. auto. }
  rewrite random_sample_some by apply Nat.le_min_r.
  destruct (sample_loop _ _ g) as [selected g1] eqn:Es.
  destruct (group_by_type selected) as [ tg | ] eqn:Etg.
  - destruct (shuffle_groups tg g1) as [tg' g2]. left.
    repeat split; try reflexivity. discriminate.
  - right. right. repeat split; try reflexivity.
    destruct (group_by_type_none selected Etg) as (q & Hq & Hh).
    assert (Hin : In q (q0 :: rest)).
    { apply (in_sample_loop (Nat.min 10 (List.length (q0 :: rest))) _ g).
      rewrite Es. exact Hq. }
    exists q. split; [ exact Hin | ].
    rewrite <- Epool in Hin. apply collected_have_type in Hin as [_ E].
    rewrite <- E. exact Hh.
Qed.

Section SampleFacts.

Context {A : Type}.

Lemma list_set_app_l (j : nat) (x : A) (p q : list A) :
  j < List.length p -> list_set j x (p ++ q) = list_set j x p ++ q.
Proof.
  revert j. induction p as [ | y p IH ]; intros [ | j ] H; simpl in *;
    try lia; try reflexivity.
  rewrite IH by lia. reflexivity.
Qed.

Lemma list_set_app_r (x y : A) (p q : list A) :
  list_set (List.length p) x (p ++ y :: q) = p ++ x :: q.
Proof. induction p as [ | z p IH ]; simpl; [ | rewrite IH ]; reflexivity. Qed.

(** Taking the item at a position of the pool and closing the hole with the
    last item leaves the rest of the pool. *)
Lemma pick_perm (pool : list A) (d : A) (j : nat) :
  j < List.length pool ->
  Permutation (nth j pool d :: removelast (list_set j (last pool d) pool))
              pool.
Proof.
  intros Hj.
  destruct (exists_last (l := pool)) as (p & l & ->).
  { destruct pool; [ simpl in Hj; lia | discriminate ]. }
  rewrite last_last. rewrite length_app in Hj. simpl in Hj.
  destruct (Nat.eq_dec j (List.length p)) as [ -> | Hne ].
  - rewrite list_set_app_r, removelast_last, nth_middle.
    apply Permutation_cons_append.
  - assert (Hlt : j < List.length p) by lia.
    rewrite list_set_app_l by exact Hlt.
    rewrite removelast_last, app_nth1 by exact Hlt.
    rewrite (list_set_perm j (nth j p d) l p).
    + apply Permutation_cons_append.
    + apply nth_error_nth'. exact Hlt.
Qed.

(** A sample takes each position of the pool at most once: the sample and
    what is left of the pool make up the pool. *)
Lemma sample_loop_perm (k : nat) :
  forall (pool : list A) (g : rng),
    exists rest, Permutation (fst (sample_loop k pool g) ++ rest) pool.
Proof.
  induction k as [ | k IH ]; intros pool g.
  - exists pool. reflexivity.
  - destruct pool as [ | d pool ]; [ exists []; reflexivity | ].
    cbn [sample_loop].
    remember (d :: pool) as p eqn:Ep.
    assert (Hlen : 0 < List.length p) by (subst p; simpl; lia).
    pose proof (randbelow_lt (List.length p) g Hlen) as Hj.
    destruct (randbelow (List.length p) g) as [j g1].
    destruct (IH (removelast (list_set j (last p d) p)) g1) as (rest & Hp).
    destruct (sample_loop k _ g1) as [sel g2].
    cbn [fst] in *. exists rest. simpl.
    rewrite Hp. apply pick_perm, Hj.
Qed.

End SampleFacts.

Lemma five_filters_known (selected : list dict) :
  Permutation
    (filter (fun q => py_eq (question_type q) (VStr "multiple_choice")) selected
     ++ filter (fun q => py_eq (question_type q) (VStr "true_false")) selected
     ++ filter (fun q => py_eq (question_type q) (VStr "short_answer")) selected
     ++ filter (fun q => py_eq (question_type q) (VStr "fill_blank")) selected
     ++ filter (fun q => py_eq (question_type q) (VStr "unknown")) selected)
    (filter known_type selected).
Proof.
  induction selected as [ | q sel IH ]; [ reflexivity | ].
  cbn [filter]. unfold known_type at 1, type_order. cbn [existsb].
  destruct (py_eq (question_type q) (VStr "multiple_choice")) eqn:E1.
  { apply py_eq_str_r in E1. rewrite E1. cbn -[filter known_type].
    apply perm_skip, IH. }
  destruct (py_eq (question_type q) (VStr "true_false")) eqn:E2.
  { apply py_eq_str_r in E2. rewrite E2. cbn -[filter known_type].
    rewrite <- Permutation_middle. apply perm_skip, IH. }
  destruct (py_eq (question_type q) (VStr "short_answer")) eqn:E3.
  { apply py_eq_str_r in E3. rewrite E3. cbn -[filter known_type].
    rewrite !app_assoc. rewrite <- Permutation_middle.
    rewrite <- !app_assoc. apply perm_skip, IH. }
  destruct (py_eq (question_type q) (VStr "fill_blank")) eqn:E4.
  { apply py_eq_str_r in E4. rewrite E4. cbn -[filter known_type].
    rewrite !app_assoc. rewrite <- Permutation_middle.
    rewrite <- !app_assoc. apply perm_skip, IH. }
  destruct (py_eq (question_type q) (VStr "unknown")) eqn:E5.
  { cbn -[filter known_type].
    rewrite !app_assoc. rewrite <- Permutation_middle.
    rewrite <- !app_assoc. apply perm_skip, IH. }
  cbn -[filter known_type]. exact IH.
Qed.

Lemma filter_split_perm {A : Type} (f : A -> bool) (l : list A) :
  Permutation (filter f l ++ filter (fun x => negb (f x)) l) l.
Proof.
  induction l as [ | x l IH ]; [ reflexivity | ].
  simpl. destruct (f x); simpl.
  - apply perm_skip, IH.
  - rewrite <- Permutation_middle. apply perm_skip, IH.
Qed.

(** The questions of a stored session are entries of the pool, each entry
    used at most once (the session and some remainder make up the pool),
    and every one of them has [type], [question] and [answer]. *)
Theorem session_is_part_of_pool (st : session_state) (blocks : list block)
    (subject chosen_topic chosen_grade : value) (g : rng) :
  let pool := collect_questions_from_blocks blocks
                (unless_all chosen_topic) (unless_all chosen_grade) in
  let r := start_quiz st blocks subject chosen_topic chosen_grade g in
  snd r = SessionStarted ->
  (exists rest, Permutation (quiz_questions (fst r) ++ rest) pool)
  /\ Forall (fun q => has_required_fields q = true) (quiz_questions (fst r)).
Proof.
  intros pool r Hs.
  destruct (start_quiz_started st blocks subject chosen_topic chosen_grade
              g Hs) as (selected & tg & g1 & _ & Hsel & Htg & Hq).
  fold pool in Hsel.
  assert (Hpart : exists rest,
             Permutation (quiz_questions (fst r) ++ rest) pool).
  { destruct (sample_loop_perm (Nat.min 10 (List.length pool)) pool g)
      as (rest & Hrest).
    rewrite <- Hsel in Hrest.
    exists (filter (fun q => negb (known_type q)) selected ++ rest).
    unfold r. rewrite Hq, flatten_groups_eq.
    rewrite !(shuffle_groups_get tg g1 _).
    rewrite !(group_by_type_get selected tg _ Htg).
    rewrite five_filters_known, app_assoc, filter_split_perm.
    exact Hrest. }
  split; [ exact Hpart | ].
  destruct Hpart as (rest & Hrest).
  rewrite Forall_forall. intros q Hin.
  assert (Hp : In q pool).
  { apply (Permutation_in _ Hrest). apply in_or_app. left. exact Hin. }
  apply collected_have_type in Hp as [Hv _]. exact Hv.
Qed.

Lemma session_is_part_of_pool_witness :
  let pool := collect_questions_from_blocks example_blocks VNone VNone in
  let r := start_quiz initial_session example_blocks (VStr "English")
                      (VStr "All") (VStr "All") [3; 1; 4; 1; 5] in
  snd r = SessionStarted
  /\ (exists rest, Permutation (quiz_questions (fst r) ++ rest) pool)
  /\ Forall (fun q => has_required_fields q = true) (quiz_questions (fst r)).
Proof.
  intros pool r. split; [ reflexivity | ].
  apply (session_is_part_of_pool initial_session example_blocks
           (VStr "English") (VStr "All") (VStr "All") [3; 1; 4; 1; 5]).
  reflexivity.
Defined.

(** A stored session has at most ten questions and at most as many as the
    pool. *)
Theorem session_length_bound (st : session_state) (blocks : list block)
    (subject chosen_topic chosen_grade : value) (g : rng) :
  let r := start_quiz st blocks subject chosen_topic chosen_grade g in
  snd r = SessionStarted ->
  List.length (quiz_questions (fst r)) <= 10
  /\ List.length (quiz_questions (fst r))
     <= total_avail blocks chosen_topic chosen_grade.
Proof.
  intros r Hs.
  destruct (start_quiz_length_le st blocks subject chosen_topic chosen_grade
              g Hs) as (selected & Hlen & Hperm).
  fold r in Hperm. rewrite (Permutation_length Hperm).
  pose proof (filter_length_le known_type selected) as Hle.
  unfold total_avail. lia.
Qed.

Lemma session_length_bound_witness :
  let r := start_quiz initial_session example_blocks (VStr "English")
                      (VStr "All") (VStr "All") [3; 1; 4; 1; 5] in
  snd r = SessionStarted
  /\ List.length (quiz_questions (fst r)) <= 10
  /\ List.length (quiz_questions (fst r))
     <= total_avail example_blocks (VStr "All") (VStr "All").
Proof.
  intros r. split; [ reflexivity | ].
  apply (session_length_bound initial_session example_blocks
           (VStr "English") (VStr "All") (VStr "All") [3; 1; 4; 1; 5]).
  reflexivity.
Defined.

Lemma start_quiz_length_known_types_witness :
  let r := start_quiz initial_session english_blocks (VStr "English")
                      (VStr "All") (VStr "All") [5; 8] in
  snd r = SessionStarted
  /\ List.length (quiz_questions (fst r)) = 2.
Proof.
  intros r. split; [ reflexivity | ].
  apply (start_quiz_length_known_types initial_session english_blocks
           (VStr "English") (VStr "All") (VStr "All") [5; 8]).
  - reflexivity.
  - repeat constructor.
Defined.

(** Start Quiz shows the warning exactly when the number shown as available
    is 0. *)
Theorem warning_iff_none_available (st : session_state) (blocks : list block)
    (subject chosen_topic chosen_grade : value) (g : rng) :
  snd (start_quiz st blocks subject chosen_topic chosen_grade g)
  = NoMatchingQuestions
  <-> total_avail blocks chosen_topic chosen_grade = 0.
Proof.
  unfold total_avail.
  destruct (start_quiz_all_or_nothing_cases st blocks subject chosen_topic
              chosen_grade g) as [ (Hs & Hp) | [ (Hs & Hp) | (Hs & Hp) ] ];
    rewrite Hs; split; intros H; try discriminate H; try reflexivity.
  - apply length_zero_iff_nil in H. contradiction.
  - rewrite Hp. reflexivity.
  - apply length_zero_iff_nil in H. contradiction.
Qed.

(** ** The grader: whole runs, and the shape of normalized answers *)

Lemma is_space_lower_char (c : ascii) : is_space (lower_char c) = is_space c.
Proof. destruct c as [[] [] [] [] [] [] [] []]; reflexivity. Qed.

Lemma lower_char_idem (c : ascii) : lower_char (lower_char c) = lower_char c.
Proof. destruct c as [[] [] [] [] [] [] [] []]; reflexivity. Qed.

Lemma lower_idem (s : string) : lower (lower s) = lower s.
Proof.
  induction s as [ | c s IH ]; simpl; [ reflexivity | ].
  rewrite lower_char_idem, IH. reflexivity.
Qed.

Lemma lstrip_lower (s : string) : lstrip (lower s) = lower (lstrip s).
Proof.
  induction s as [ | c s IH ]; simpl; [ reflexivity | ].
  rewrite is_space_lower_char.
  destruct (is_space c); [ exact IH | reflexivity ].
Qed.

Lemma rstrip_lower (s : string) : rstrip (lower s) = lower (rstrip s).
Proof.
  induction s as [ | c s IH ]; simpl; [ reflexivity | ].
  rewrite IH, is_space_lower_char.
  destruct (rstrip s); simpl; [ destruct (is_space c) | ]; reflexivity.
Qed.

Lemma strip_lower (s : string) : strip (lower s) = lower (strip s).
Proof. unfold strip. rewrite lstrip_lower, rstrip_lower. reflexivity. Qed.

Lemma rstrip_idem (s : string) : rstrip (rstrip s) = rstrip s.
Proof.
  induction s as [ | c s IH ]; simpl; [ reflexivity | ].
  destruct (rstrip s) as [ | c' r ] eqn:E.
  - destruct (is_space c) eqn:Ec; simpl; [ reflexivity | ].
    rewrite Ec. reflexivity.
  - simpl in *. rewrite IH. reflexivity.
Qed.

(** A string that does not start with whitespace. *)
Lemma lstrip_fixed (s : string) :
  match s with EmptyString => True | String c _ => is_space c = false end ->
  lstrip s = s.
Proof.
  destruct s as [ | c s ]; simpl; [ reflexivity | ]. intros ->. reflexivity.
Qed.

Lemma lstrip_head (s : string) :
  match lstrip s with
  | EmptyString => True
  | String c _ => is_space c = false
  end.
Proof.
  induction s as [ | c s IH ]; simpl; [ exact I | ].
  destruct (is_space c) eqn:E; [ exact IH | exact E ].
Qed.

Lemma rstrip_head (s : string) :
  match s with EmptyString => True | String c _ => is_space c = false end ->
  match rstrip s with
  | EmptyString => True
  | String c _ => is_space c = false
  end.
Proof.
  destruct s as [ | c s ]; simpl; [ auto | ]. intros Hc.
  destruct (rstrip s); [ rewrite Hc | ]; exact Hc.
Qed.

Lemma strip_idem (s : string) : strip (strip s) = strip s.
Proof.
  unfold strip.
  rewrite (lstrip_fixed (rstrip (lstrip s))).
  - apply rstrip_idem.
  - apply rstrip_head, lstrip_head.
Qed.

Section GraderRuns.

Variable container_str : value -> string.

(** A normalized answer has no whitespace at either end and no capital
    letter, and normalizing it again changes nothing. *)
Theorem normalize_answer_canonical (ans : value) :
  let n := normalize_answer container_str ans in
  strip n = n /\ lower n = n
  /\ normalize_answer container_str (VStr n) = n.
Proof.
  intros n.
  assert (H : strip n = n /\ lower n = n).
  { unfold n. destruct ans; simpl; try (split; reflexivity);
      rewrite strip_lower, strip_idem, lower_idem; split; reflexivity. }
  destruct H as [Hs Hl]. repeat split; try assumption.
  simpl. rewrite Hs. exact Hl.
Qed.

(** A [true_false] question whose stored answer normalizes to neither
    ["true"] nor ["false"] is marked incorrect for every submission. *)
Theorem true_false_unanswerable (q : dict) :
  dict_get q "type" = VStr "true_false" ->
  normalize_answer container_str (dict_get q "answer") <> "true" ->
  normalize_answer container_str (dict_get q "answer") <> "false" ->
  forall user_raw, pass_mark container_str q user_raw = false.
Proof.
  intros Hty Ht Hf user_raw.
  rewrite (pass_mark_true_false container_str q user_raw Hty).
  apply andb_false_iff.
  destruct (String.eqb (normalize_answer container_str user_raw) "true")
    eqn:E1.
  - right. apply String.eqb_eq in E1. rewrite E1.
    apply String.eqb_neq. congruence.
  - destruct (String.eqb (normalize_answer container_str user_raw) "false")
      eqn:E2; [ | left; reflexivity ].
    right. apply String.eqb_eq in E2. rewrite E2.
    apply String.eqb_neq. congruence.
Qed.

(** Of the three options of the [true_false] radio, ["True"] is marked
    correct exactly when the stored answer normalizes to ["true"], ["False"]
    exactly when it normalizes to ["false"], and the option selected at
    first never is; so at most one option is correct. *)
Theorem true_false_radio_marks (q : dict) :
  dict_get q "type" = VStr "true_false" ->
  pass_mark container_str q (VStr "Select an answer") = false
  /\ (pass_mark container_str q (VStr "True") = true <->
      normalize_answer container_str (dict_get q "answer") = "true")
  /\ (pass_mark container_str q (VStr "False") = true <->
      normalize_answer container_str (dict_get q "answer") = "false")
  /\ (forall o o', In o true_false_options -> In o' true_false_options ->
        pass_mark container_str q o = true ->
        pass_mark container_str q o' = true -> o = o').
Proof.
  intros Hty.
  assert (H0 : pass_mark container_str q (VStr "Select an answer") = false)
    by (rewrite (pass_mark_true_false container_str q _ Hty); reflexivity).
  assert (H1 : pass_mark container_str q (VStr "True") = true <->
               normalize_answer container_str (dict_get q "answer") = "true").
  { rewrite (pass_mark_true_false container_str q _ Hty).
    change (normalize_answer container_str (VStr "True")) with "true".
    rewrite String.eqb_refl. cbn [orb andb].
    rewrite String.eqb_eq. split; congruence. }
  assert (H2 : pass_mark container_str q (VStr "False") = true <->
               normalize_answer container_str (dict_get q "answer") = "false").
  { rewrite (pass_mark_true_false container_str q _ Hty).
    change (normalize_answer container_str (VStr "False")) with "false".
    change (String.eqb "false" "true") with false.
    rewrite String.eqb_refl. cbn [orb andb].
    rewrite String.eqb_eq. split; congruence. }
  repeat split; try apply H1; try apply H2; try exact H0.
  intros o o' Ho Ho' Hm Hm'. simpl in Ho, Ho'.
  destruct Ho as [ <- | [ <- | [ <- | [] ] ] ];
    destruct Ho' as [ <- | [ <- | [ <- | [] ] ] ];
    try reflexivity; try congruence.
  - apply H1 in Hm. apply H2 in Hm'. congruence.
  - apply H2 in Hm. apply H1 in Hm'. congruence.
Qed.

Lemma nth_error_skipn {A : Type} (l : list A) :
  forall i u, nth_error l i = Some u -> skipn i l = u :: skipn (S i) l.
Proof.
  induction l as [ | x l IH ]; intros [ | i ] u; simpl; try discriminate.
  - intros [= ->]. reflexivity.
  - intros H. rewrite (IH i u H). reflexivity.
Qed.

Lemma grading_loop_total (questions : list dict) (user_answers : list value) :
  forall i score,
    i + List.length questions <= List.length user_answers ->
    grading_loop container_str questions user_answers i score
    = let marks := map (fun qu => pass_mark container_str (fst qu) (snd qu))
                       (combine questions (skipn i user_answers)) in
      Some (marks, score + List.length (filter (fun m => m) marks)).
Proof.
  induction questions as [ | q rest IH ]; intros i score Hlen; simpl.
  - rewrite Nat.add_0_r. reflexivity.
  - simpl in Hlen.
    destruct (nth_error user_answers i) as [ u | ] eqn:Eu.
    2:{ apply nth_error_None in Eu. lia. }
    rewrite IH by lia. rewrite (nth_error_skipn _ _ _ Eu). simpl.
    destruct (pass_mark container_str q u); simpl; repeat f_equal; lia.
Qed.

Lemma all_true_count (marks : list bool) :
  List.length (filter (fun m => m) marks) = List.length marks
  <-> forallb (fun m => m) marks = true.
Proof.
  induction marks as [ | m marks IH ]; simpl; [ tauto | ].
  pose proof (filter_length_le (fun m => m) marks) as Hle.
  destruct m; simpl.
  - rewrite <- IH. split; lia.
  - split; [ lia | discriminate ].
Qed.

(** With one submission per question, grading returns the marks of the
    questions in order; the score is the number of correct marks, it is at
    most the number of questions, and it equals it (the perfect score)
    exactly when every mark is correct. *)
Theorem grade_scores (questions : list dict) (user_answers : list value) :
  List.length user_answers = List.length questions ->
  exists marks score,
    grade container_str questions user_answers = Some (marks, score)
    /\ marks = map (fun qu => pass_mark container_str (fst qu) (snd qu))
                   (combine questions user_answers)
    /\ score = List.length (filter (fun m => m) marks)
    /\ score <= List.length questions
    /\ (score = List.length questions <-> forallb (fun m => m) marks = true).
Proof.
  intros Hlen. unfold grade.
  rewrite grading_loop_total by (simpl; lia). simpl.
  eexists. eexists. split; [ reflexivity | ].
  set (marks := map _ _).
  assert (Hm : List.length marks = List.length questions).
  { unfold marks. rewrite length_map, length_combine. lia. }
  pose proof (filter_length_le (fun m => m) marks) as Hle.
  repeat split; try lia.
  - intros H. apply all_true_count. lia.
  - intros H. apply all_true_count in H. lia.
Qed.

(** With fewer submissions than questions the grading loop raises
    [IndexError]. *)
Theorem grade_too_few_answers (questions : list dict)
    (user_answers : list value) :
  List.length user_answers < List.length questions ->
  grade container_str questions user_answers = None.
Proof.
  unfold grade.
  assert (G : forall i score,
             i <= List.length user_answers ->
             List.length user_answers < i + List.length questions ->
             grading_loop container_str questions user_answers i score
             = None).
  { induction questions as [ | q rest IH ]; intros i score Hi Hlt; simpl.
    - simpl in Hlt. lia.
    - destruct (nth_error user_answers i) as [ u | ] eqn:Eu;
        [ | reflexivity ].
      assert (Hlt' : i < List.length user_answers).
      { apply nth_error_Some. congruence. }
      rewrite IH; [ reflexivity | lia | simpl in Hlt; lia ]. }
  intros H. apply G; simpl; lia.
Qed.

End GraderRuns.

Lemma true_false_unanswerable_witness :
  normalize_answer no_repr
    (dict_get [("type", VStr "true_false"); ("question", VStr "?");
               ("answer", VStr "T")] "answer") = "t"
  /\ pass_mark no_repr [("type", VStr "true_false"); ("question", VStr "?");
                        ("answer", VStr "T")] (VStr "T") = false.
Proof.
  split; [ reflexivity | ].
  apply (true_false_unanswerable no_repr
           [("type", VStr "true_false"); ("question", VStr "?");
            ("answer", VStr "T")]).
  - reflexivity.
  - simpl. discriminate.
  - simpl. discriminate.
Defined.

Lemma true_false_radio_marks_witness :
  pass_mark no_repr algebra_question (VStr "Select an answer") = false
  /\ (pass_mark no_repr algebra_question (VStr "True") = true <->
      normalize_answer no_repr (dict_get algebra_question "answer") = "true").
Proof.
  destruct (true_false_radio_marks no_repr algebra_question eq_refl)
    as (H0 & H1 & _).
  split; [ exact H0 | exact H1 ].
Defined.

Lemma grade_scores_witness :
  exists marks score,
    grade no_repr [algebra_question; example_question "short_answer" "ran"]
          [VStr "True"; VStr "walked"] = Some (marks, score)
    /\ marks = [true; false] /\ score = 1.
Proof.
  destruct (grade_scores no_repr
              [algebra_question; example_question "short_answer" "ran"]
              [VStr "True"; VStr "walked"] eq_refl)
    as (marks & score & Hg & Hm & Hs & _).
  exists marks, score. split; [ exact Hg | ].
  split; [ exact Hm | ]. rewrite Hs, Hm. reflexivity.
Defined.

Lemma grade_too_few_answers_witness :
  grade no_repr [algebra_question; example_question "short_answer" "ran"]
        [VStr "True"] = None.
Proof.
  apply (grade_too_few_answers no_repr
           [algebra_question; example_question "short_answer" "ran"]
           [VStr "True"]).
  simpl. lia.
Defined.

(** ** Loading: the catalog groups the blocks by subject *)

Lemma py_eq_same_key (a b s : value) :
  hashable a = true -> hashable b = true -> hashable s = true ->
  py_eq a b = true -> py_eq a s = py_eq b s.
Proof.
  intros Ha Hb Hs E. apply (py_eq_key a b Ha Hb) in E.
  destruct (py_eq a s) eqn:E1; destruct (py_eq b s) eqn:E2; try reflexivity.
  - apply (py_eq_key a s Ha Hs) in E1.
    assert (E3 : key_of b = key_of s) by congruence.
    apply (py_eq_key b s Hb Hs) in E3. congruence.
  - apply (py_eq_key b s Hb Hs) in E2.
    assert (E3 : key_of a = key_of s) by congruence.
    apply (py_eq_key a s Ha Hs) in E3. congruence.
Qed.

Lemma catalog_get_append (c : catalog) (k s : value) (b : block) :
  Forall (fun kv => hashable (fst kv) = true) c ->
  hashable k = true -> hashable s = true ->
  catalog_get (catalog_append c k b) s
  = if py_eq k s then catalog_get c s ++ [b] else catalog_get c s.
Proof.
  intros Hc Hk Hs. unfold catalog_get.
  induction c as [ | [k' l] c IH ]; simpl.
  - destruct (py_eq k s); reflexivity.
  - apply Forall_cons_iff in Hc as [Hk' Hc]. simpl in Hk'.
    specialize (IH Hc).
    destruct (py_eq k' k) eqn:Ek; simpl.
    + rewrite (py_eq_same_key k' k s Hk' Hk Hs Ek).
      destruct (py_eq k s); reflexivity.
    + destruct (py_eq k' s) eqn:Es; [ | exact IH ].
      destruct (py_eq k s) eqn:Eks; [ | reflexivity ].
      exfalso.
      apply (py_eq_key k' s Hk' Hs) in Es.
      apply (py_eq_key k s Hk Hs) in Eks.
      assert (E : key_of k' = key_of k) by congruence.
      apply (py_eq_key k' k Hk' Hk) in E. congruence.
Qed.

Lemma catalog_append_keys (c : catalog) (k : value) (b : block) :
  Forall (fun kv => hashable (fst kv) = true) c ->
  hashable k = true ->
  map fst (catalog_append c k b)
  = if existsb (py_eq k) (map fst c) then map fst c else map fst c ++ [k].
Proof.
  intros Hc Hk. induction c as [ | [k' l] c IH ]; simpl; [ reflexivity | ].
  apply Forall_cons_iff in Hc as [Hk' Hc]. simpl in Hk'.
  rewrite (py_eq_sym_hashable k k' Hk Hk').
  destruct (py_eq k' k); simpl; [ reflexivity | ].
  rewrite (IH Hc). destruct (existsb (py_eq k) (map fst c)); reflexivity.
Qed.

Lemma catalog_append_ok (c : catalog) (k : value) (b : block) :
  catalog_ok c -> hashable k = true -> catalog_ok (catalog_append c k b).
Proof.
  intros (Hh & Hd & Hn) Hk. unfold catalog_ok.
  rewrite (catalog_append_keys c k b Hh Hk).
  assert (G : Forall (fun kv => hashable (fst kv) = true)
                     (catalog_append c k b)
              /\ Forall (fun kv => snd kv <> []) (catalog_append c k b)).
  { clear Hd. induction c as [ | [k' l] c IH ]; simpl.
    - split; constructor; simpl; auto. discriminate.
    - apply Forall_cons_iff in Hh as [Hk' Hh].
      apply Forall_cons_iff in Hn as [Hl Hn].
      destruct (py_eq k' k).
      + split; constructor; simpl; auto. destruct l; discriminate.
      + destruct (IH Hh Hn) as [IH1 IH2]. split; constructor; auto. }
  destruct G as [G1 G2]. repeat split; try assumption.
  destruct (existsb (py_eq k) (map fst c)) eqn:E; [ exact Hd | ].
  apply distinct_members_snoc; [ exact Hd | ].
  rewrite Forall_forall. intros e He.
  destruct (py_eq k e) eqn:Eke; [ | reflexivity ].
  assert (existsb (py_eq k) (map fst c) = true)
    by (apply existsb_exists; exists e; auto).
  congruence.
Qed.

Lemma add_blocks_spec (blocks : list block) :
  forall c c',
    add_blocks c blocks = Some c' ->
    catalog_ok c ->
    catalog_ok c'
    /\ forallb (fun b => hashable (block_subject b)) blocks = true
    /\ (forall s, hashable s = true ->
          catalog_get c' s
          = catalog_get c s
            ++ filter (fun b => py_eq (block_subject b) s) blocks)
    /\ fold_left (fun acc v => match acc with
                               | Some s => set_add s v
                               | None => None
                               end) (map block_subject blocks)
                 (Some (map fst c))
       = Some (map fst c').
Proof.
  unfold add_blocks.
  induction blocks as [ | b blocks IH ]; intros c c'; simpl.
  - intros [= <-] Hok. repeat split; try apply Hok.
    intros s _. rewrite app_nil_r. reflexivity.
  - unfold add_block at 2. unfold set_add at 2.
    destruct (hashable (block_subject b)) eqn:Hb.
    2:{ rewrite fold_left_none. discriminate. }
    intros H Hok.
    pose proof (catalog_append_ok c (block_subject b) b Hok Hb) as Hok'.
    destruct (IH _ _ H Hok') as (Hok'' & Hh & Hget & Hkeys).
    destruct Hok as (Hkh & _).
    repeat split; try apply Hok''; try exact Hh.
    + intros s Hs. rewrite (Hget s Hs).
      rewrite (catalog_get_append c _ s b Hkh Hb Hs).
      destruct (py_eq (block_subject b) s); [ | reflexivity ].
      rewrite <- app_assoc. reflexivity.
    + rewrite <- (catalog_append_keys c _ b Hkh Hb). exact Hkeys.
Qed.

Lemma add_blocks_none (blocks : list block) :
  forall c,
    add_blocks c blocks = None ->
    exists b, In b blocks /\ hashable (block_subject b) = false.
Proof.
  unfold add_blocks.
  induction blocks as [ | b blocks IH ]; intros c; simpl; [ discriminate | ].
  unfold add_block at 2.
  destruct (hashable (block_subject b)) eqn:Hb.
  - intros H. destruct (IH _ H) as (b' & Hin & Hh). exists b'. auto.
  - intros _. exists b. auto.
Qed.

Lemma gather_loop_spec (fs : string -> file_read) (base_files : list string) :
  forall c errs c' errs',
    gather_loop fs base_files c errs = (Some c', errs') ->
    catalog_ok c ->
    catalog_ok c'
    /\ forallb (fun b => hashable (block_subject b))
               (loaded_blocks fs base_files) = true
    /\ (forall s, hashable s = true ->
          catalog_get c' s
          = catalog_get c s
            ++ filter (fun b => py_eq (block_subject b) s)
                      (loaded_blocks fs base_files))
    /\ fold_left (fun acc v => match acc with
                               | Some s => set_add s v
                               | None => None
                               end)
                 (map block_subject (loaded_blocks fs base_files))
                 (Some (map fst c))
       = Some (map fst c')
    /\ errs'
       = errs ++ flat_map
                   (fun p => snd (load_subject_file (path_name p) (fs p)))
                   base_files.
Proof.
  induction base_files as [ | p rest IH ]; intros c errs c' errs'; simpl.
  - intros [= <- <-] Hok. repeat split; try apply Hok.
    + intros s _. rewrite app_nil_r. reflexivity.
    + rewrite app_nil_r. reflexivity.
  - unfold loaded_blocks in *. cbn [flat_map].
    destruct (load_subject_file (path_name p) (fs p)) as [blocks e] eqn:El.
    destruct (add_blocks c blocks) as [ c1 | ] eqn:Ea; [ | discriminate ].
    intros H Hok.
    destruct (add_blocks_spec blocks c c1 Ea Hok) as (Hok1 & Hh1 & Hg1 & Hk1).
    destruct (IH _ _ _ _ H Hok1) as (Hok2 & Hh2 & Hg2 & Hk2 & He2).
    cbn [fst snd].
    repeat split; try apply Hok2.
    + rewrite forallb_app, Hh1, Hh2. reflexivity.
    + intros s Hs. rewrite (Hg2 s Hs), (Hg1 s Hs), filter_app, app_assoc.
      reflexivity.
    + rewrite map_app, fold_left_app, Hk1. exact Hk2.
    + rewrite He2, app_assoc. reflexivity.
Qed.

Lemma gather_loop_none (fs : string -> file_read) (base_files : list string) :
  forall c errs errs',
    gather_loop fs base_files c errs = (None, errs') ->
    exists b, In b (loaded_blocks fs base_files)
              /\ hashable (block_subject b) = false.
Proof.
  induction base_files as [ | p rest IH ]; intros c errs errs'; simpl;
    [ discriminate | ].
  unfold loaded_blocks in *. cbn [flat_map].
  destruct (load_subject_file (path_name p) (fs p)) as [blocks e] eqn:El.
  cbn [fst].
  destruct (add_blocks c blocks) as [ c1 | ] eqn:Ea.
  - intros H. destruct (IH _ _ _ H) as (b & Hin & Hh).
    exists b. split; [ apply in_or_app; right; exact Hin | exact Hh ].
  - intros _. destruct (add_blocks_none blocks c Ea) as (b & Hin & Hh).
    exists b. split; [ apply in_or_app; left; exact Hin | exact Hh ].
Qed.

Lemma catalog_ok_nil : catalog_ok [].
Proof. repeat split; constructor. Qed.

(** When [gather_subjects] returns, the entry of each subject holds the
    blocks of that subject (["Unknown"] for a block without one) from all
    the files, in scan order; a block is in no other entry. *)
Theorem gather_subjects_groups (fs : string -> file_read)
    (base_files : list string) (c : catalog) (errs : list string) :
  gather_subjects fs base_files = (Some c, errs) ->
  forall s, hashable s = true ->
    catalog_get c s
    = filter (fun b => py_eq (block_subject b) s) (loaded_blocks fs base_files).
Proof.
  intros H s Hs.
  destruct (gather_loop_spec fs base_files [] [] c errs H catalog_ok_nil)
    as (_ & _ & Hget & _).
  apply (Hget s Hs).
Qed.

(** The subjects of the catalog are the subjects of the blocks in first-seen
    order, each once; no entry is empty; and the messages are those of the
    files that failed to load, in order. *)
Theorem gather_subjects_keys (fs : string -> file_read)
    (base_files : list string) (c : catalog) (errs : list string) :
  gather_subjects fs base_files = (Some c, errs) ->
  py_set (map block_subject (loaded_blocks fs base_files)) = Some (map fst c)
  /\ distinct_members (map fst c)
  /\ Forall (fun kv => snd kv <> []) c
  /\ errs = flat_map (fun p => snd (load_subject_file (path_name p) (fs p)))
                     base_files.
Proof.
  intros H.
  destruct (gather_loop_spec fs base_files [] [] c errs H catalog_ok_nil)
    as ((_ & Hd & Hn) & _ & _ & Hk & He).
  repeat split; assumption.
Qed.

(** [gather_subjects] raises exactly when a block of some file has an
    unhashable subject. *)
Theorem gather_subjects_raises_iff (fs : string -> file_read)
    (base_files : list string) :
  fst (gather_subjects fs base_files) = None
  <-> exists b, In b (loaded_blocks fs base_files)
                /\ hashable (block_subject b) = false.
Proof.
  unfold gather_subjects.
  destruct (gather_loop fs base_files [] []) as [ [ c | ] errs ] eqn:E; simpl.
  - split; [ discriminate | ].
    intros (b & Hin & Hh).
    destruct (gather_loop_spec fs base_files [] [] c errs E catalog_ok_nil)
      as (_ & Hall & _).
    rewrite forallb_forall in Hall. rewrite (Hall b Hin) in Hh. discriminate.
  - split; [ intros _ | reflexivity ].
    apply (gather_loop_none fs base_files [] [] errs E).
Qed.

(** The script stops with the "no subject files" message exactly when the
    three files together hold no block. *)
Theorem start_script_stops_iff (fs : string -> file_read) :
  (exists errors, start_script fs = StartupStopped errors)
  <-> loaded_blocks fs subject_files = [].
Proof.
  unfold start_script.
  destruct (gather_subjects fs subject_files) as [ [ c | ] errs ] eqn:E.
  - destruct (gather_loop_spec fs subject_files [] [] c errs E catalog_ok_nil)
      as ((_ & _ & Hn) & Hall & Hget & Hk & _).
    destruct c as [ | [k l] c ].
    + split; [ intros _ | eauto ].
      destruct (loaded_blocks fs subject_files) as [ | b bs ];
        [ reflexivity | ].
      exfalso. simpl in Hall. apply andb_true_iff in Hall as [Hb _].
      specialize (Hget (block_subject b) Hb).
      unfold catalog_get in Hget. simpl in Hget.
      rewrite (py_eq_refl_hashable _ Hb) in Hget. discriminate.
    + split; [ intros (errors & He); discriminate He | ].
      intros Hl. exfalso. rewrite Hl in Hk. simpl in Hk. discriminate.
  - split; [ intros (errors & He); discriminate He | ].
    intros Hl. exfalso.
    destruct (gather_loop_none fs subject_files [] [] errs E)
      as (b & Hin & _).
    rewrite Hl in Hin. destruct Hin.
Qed.

Lemma gather_subjects_groups_witness :
  gather_subjects example_fs subject_files
  = (Some [(VStr "Math", algebra_blocks); (VStr "English", english_blocks)],
     [])
  /\ catalog_get [(VStr "Math", algebra_blocks);
                  (VStr "English", english_blocks)] (VStr "English")
     = filter (fun b => py_eq (block_subject b) (VStr "English"))
              (loaded_blocks example_fs subject_files).
Proof.
  split; [ reflexivity | ].
  apply (gather_subjects_groups example_fs subject_files _ [] eq_refl).
  reflexivity.
Defined.

Lemma gather_subjects_keys_witness :
  gather_subjects broken_fs ["data/math.json"; "english.json"]
  = (Some [(VStr "English", english_blocks)],
     ["Error loading math.json: Expecting value"])
  /\ py_set (map block_subject
                 (loaded_blocks broken_fs ["data/math.json"; "english.json"]))
     = Some [VStr "English"].
Proof.
  split; [ reflexivity | ].
  apply (proj1 (gather_subjects_keys broken_fs
                  ["data/math.json"; "english.json"]
                  [(VStr "English", english_blocks)]
                  ["Error loading math.json: Expecting value"] eq_refl)).
Defined.

Example path_name_examples :
  path_name "math.json" = "math.json"
  /\ path_name "sub/math.json" = "math.json"
  /\ path_name "/srv/quiz/data/english.json" = "english.json"
  /\ path_name "a/b/" = "b"
  /\ path_name "a//b/." = "b"
  /\ path_name "/" = "".
Proof. repeat split; reflexivity. Qed.

(** ** The quiz form: widget keys *)

Lemma digits_no_underscore (d : Decimal.uint) :
  no_underscore (NilEmpty.string_of_uint d).
Proof. induction d; simpl; auto; split; auto; discriminate. Qed.

Lemma nat_str_no_underscore (n : nat) : no_underscore (nat_str n).
Proof.
  unfold nat_str, NilZero.string_of_uint.
  destruct (Nat.to_uint n) eqn:E; try (rewrite <- E);
    try apply digits_no_underscore.
  simpl. split; [ discriminate | exact I ].
Qed.

Lemma split_at_underscore (a a' b b' : string) :
  no_underscore a -> no_underscore a' ->
  (a ++ String "_" b)%string = (a' ++ String "_" b')%string ->
  a = a' /\ b = b'.
Proof.
  revert a'. induction a as [ | c a IH ]; intros [ | c' a' ]; simpl.
  - intros _ _ [= ->]. auto.
  - intros _ [Hc _] [= E _]. congruence.
  - intros [Hc _] _ [= E _]. congruence.
  - intros [_ Ha] [_ Ha'] [= -> E].
    destruct (IH a' Ha Ha' E) as [-> ->]. auto.
Qed.

Lemma nat_to_uint_nonnil (n : nat) : Nat.to_uint n <> Decimal.Nil.
Proof.
  rewrite <- (DecimalNat.Unsigned.of_to n) at 1.
  rewrite DecimalNat.Unsigned.to_of. apply DecimalFacts.unorm_nonnil.
Qed.

Lemma nat_str_inj (n n' : nat) : nat_str n = nat_str n' -> n = n'.
Proof.
  unfold nat_str. intros H.
  apply DecimalNat.Unsigned.to_uint_inj.
  assert (E : NilZero.uint_of_string (NilZero.string_of_uint (Nat.to_uint n))
              = NilZero.uint_of_string
                  (NilZero.string_of_uint (Nat.to_uint n')))
    by (rewrite H; reflexivity).
  rewrite !NilZero.usu in E by apply nat_to_uint_nonnil.
  congruence.
Qed.

Lemma int_str_inj (z z' : Z) :
  NilZero.string_of_int (Z.to_int z) = NilZero.string_of_int (Z.to_int z') ->
  z = z'.
Proof.
  intros H. apply DecimalZ.to_int_inj.
  assert (N : forall x, Z.to_int x <> Decimal.Pos Decimal.Nil
                        /\ Z.to_int x <> Decimal.Neg Decimal.Nil).
  { intros [ | p | p ]; simpl; split; try discriminate;
      intros [= E]; exact (DecimalPos.Unsigned.to_uint_nonnil p E). }
  assert (E : NilZero.int_of_string (NilZero.string_of_int (Z.to_int z))
              = NilZero.int_of_string (NilZero.string_of_int (Z.to_int z')))
    by (rewrite H; reflexivity).
  rewrite !NilZero.isi in E by apply N.
  congruence.
Qed.

Lemma widget_key_inj_aux (i i' : nat) (v v' : Z) :
  widget_key i v = widget_key i' v' -> i = i' /\ v = v'.
Proof.
  unfold widget_key. simpl. intros [= H].
  apply split_at_underscore in H as [Hi Hv];
    try apply nat_str_no_underscore.
  injection Hv as Hv.
  split; [ apply nat_str_inj, Hi | apply int_str_inj, Hv ].
Qed.

(** Two widgets have the same key only when they stand at the same index
    and the version is the same; so no widget of the form of one version
    shares its key with a widget of the form of another version. *)
Theorem widget_key_inj (i i' : nat) (v v' : Z) :
  (widget_key i v = widget_key i' v' -> i = i' /\ v = v')
  /\ (v <> v' -> widget_key i v <> widget_key i' v').
Proof.
  split; [ apply widget_key_inj_aux | ].
  intros Hv E. apply widget_key_inj_aux in E as [_ E]. contradiction.
Qed.

Lemma widget_for_key (q : dict) (q_type : value) (i : nat) (version : Z)
    (w : widget) :
  widget_for q q_type i version = Some w ->
  widget_key_of w = widget_key i version.
Proof.
  unfold widget_for.
  destruct (py_eq q_type (VStr "multiple_choice")).
  { destruct (radio_options _); [ | discriminate ].
    intros [= <-]. reflexivity. }
  destruct (py_eq q_type (VStr "true_false")); [ intros [= <-]; reflexivity | ].
  destruct (py_eq q_type (VStr "short_answer"));
    [ intros [= <-]; reflexivity | ].
  destruct (py_eq q_type (VStr "fill_blank")); intros [= <-]; reflexivity.
Qed.

Lemma render_loop_items (version : Z) (questions : list dict) :
  forall i cur items,
    render_loop version i cur questions = Some items ->
    List.length items = List.length questions
    /\ map (fun it => widget_key_of (shown_widget it)) items
       = map (fun n => widget_key n version)
             (seq i (List.length questions))
    /\ map shown_number items = seq (i + 1) (List.length questions)
    /\ map shown_text items = map (fun q => dict_get q "question") questions
    /\ shown_headers items = header_types cur (map question_type questions).
Proof.
  induction questions as [ | q rest IH ]; intros i cur items; simpl.
  - intros [= <-]. repeat split.
  - unfold header_for.
    destruct (py_eq (question_type q) cur) eqn:Ecur; simpl.
    + destruct (widget_for q _ i version) as [ w | ] eqn:Ew; [ | discriminate ].
      destruct (render_loop version (S i) cur rest) as [ its | ] eqn:Er;
        [ | discriminate ].
      intros [= <-]. destruct (IH _ _ _ Er) as (Hl & Hk & Hn & Ht & Hh).
      simpl. rewrite Hl, Hk, Hn, Ht, (widget_for_key _ _ _ _ _ Ew).
      repeat split. unfold shown_headers in *. simpl. exact Hh.
    + destruct (question_type q) as [ | b | z | t | l | d ] eqn:Ety;
        try discriminate.
      destruct (widget_for q _ i version) as [ w | ] eqn:Ew; [ | discriminate ].
      destruct (render_loop version (S i) (VStr t) rest) as [ its | ] eqn:Er;
        [ | discriminate ].
      intros [= <-]. destruct (IH _ _ _ Er) as (Hl & Hk & Hn & Ht & Hh).
      simpl. rewrite Hl, Hk, Hn, Ht, (widget_for_key _ _ _ _ _ Ew).
      repeat split. unfold shown_headers in *. simpl. rewrite Hh. reflexivity.
Qed.

Lemma NoDup_map_inj {A B : Type} (f : A -> B) (l : list A) :
  (forall x y, f x = f y -> x = y) -> NoDup l -> NoDup (map f l).
Proof.
  intros Hf. induction 1 as [ | x l Hx Hl IH ]; simpl; constructor; auto.
  intros Hin. apply in_map_iff in Hin as (y & E & Hy).
  apply Hf in E. subst y. contradiction.
Qed.

(** The form has one widget per question, numbered from 1 in order, and no
    two of its widgets have the same key. *)
Theorem render_quiz_widgets (st : session_state) (items : list shown_question) :
  render_quiz st = Some items ->
  List.length items = List.length (quiz_questions st)
  /\ map shown_number items = seq 1 (List.length (quiz_questions st))
  /\ map shown_text items
     = map (fun q => dict_get q "question") (quiz_questions st)
  /\ NoDup (map (fun it => widget_key_of (shown_widget it)) items).
Proof.
  unfold render_quiz. intros H.
  destruct (render_loop_items _ _ _ _ _ H) as (Hl & Hk & Hn & Ht & _).
  repeat split; try assumption.
  rewrite Hk. apply NoDup_map_inj; [ | apply seq_NoDup ].
  intros n n' E. apply widget_key_inj_aux in E as [E _]. exact E.
Qed.

(** ** The quiz form: type headers *)

Lemma header_types_same_run (t : string) (n : nat) (rest : list value) :
  header_types (VStr t) (repeat (VStr t) n ++ rest)
  = header_types (VStr t) rest.
Proof.
  induction n as [ | n IH ]; [ reflexivity | ].
  cbn [repeat Datatypes.app header_types py_eq].
  rewrite String.eqb_refl. exact IH.
Qed.

Lemma header_types_same_run_end (t : string) (n : nat) :
  header_types (VStr t) (repeat (VStr t) n) = [].
Proof.
  rewrite <- (app_nil_r (repeat (VStr t) n)).
  apply header_types_same_run.
Qed.

Lemma run_types (t : string) (run : list dict) :
  Forall (fun q => dict_get q "type" = VStr t) run ->
  map question_type run = repeat (VStr t) (List.length run).
Proof.
  induction 1 as [ | q run Hq Hrun IH ]; simpl; [ reflexivity | ].
  rewrite IH. f_equal.
  unfold question_type, dict_get, dict_get_default in *.
  destruct (dict_lookup q "type"); [ exact Hq | discriminate ].
Qed.

Lemma run_has_type (t t' : string) (run : list dict) :
  Forall (fun q => dict_get q "type" = VStr t) run ->
  existsb (fun q => py_eq (question_type q) (VStr t')) run
  = negb (Nat.eqb (List.length run) 0) && String.eqb t t'.
Proof.
  intros H. pose proof (run_types t run H) as E.
  induction H as [ | q run Hq Hrun IH ]; [ reflexivity | ].
  simpl in E. injection E as Eq E.
  cbn [existsb List.length Nat.eqb negb andb]. rewrite Eq.
  cbn [py_eq]. rewrite (IH E).
  destruct (String.eqb t t'); [ reflexivity | ].
  rewrite andb_false_r. reflexivity.
Qed.

(** In the form of a list in type order, each type that occurs gets its
    header once, and the headers come in the fixed order of the types. *)
Lemma grouped_list_headers (version : Z) (questions : list dict)
    (items : list shown_question) :
  in_type_order questions ->
  render_loop version 0 VNone questions = Some items ->
  shown_headers items
  = filter (fun t => existsb (fun q => py_eq (question_type q) (VStr t))
                             questions)
           type_order.
Proof.
  intros (mc & tf & sa & fb & un & -> & Hmc & Htf & Hsa & Hfb & Hun) Hr.
  destruct (render_loop_items _ _ _ _ _ Hr) as (_ & _ & _ & _ & ->).
  rewrite !map_app.
  rewrite (run_types _ _ Hmc), (run_types _ _ Htf), (run_types _ _ Hsa),
    (run_types _ _ Hfb), (run_types _ _ Hun).
  unfold type_order. cbn [filter]. rewrite !existsb_app.
  repeat rewrite (run_has_type _ _ _ Hmc).
  repeat rewrite (run_has_type _ _ _ Htf).
  repeat rewrite (run_has_type _ _ _ Hsa).
  repeat rewrite (run_has_type _ _ _ Hfb).
  repeat rewrite (run_has_type _ _ _ Hun).
  generalize (List.length mc) (List.length tf) (List.length sa)
             (List.length fb) (List.length un).
  clear. intros [ | n1 ] [ | n2 ] [ | n3 ] [ | n4 ] [ | n5 ];
    cbn -[header_types repeat Datatypes.app];
    cbn [repeat Datatypes.app];
    repeat (cbn [header_types py_eq num_of];
            cbn -[header_types repeat Datatypes.app];
            rewrite ?header_types_same_run, ?header_types_same_run_end);
    reflexivity.
Qed.

(** ** The quiz form of a stored session *)

Lemma stored_session_in_type_order (st : session_state) (blocks : list block)
    (subject chosen_topic chosen_grade : value) (g : rng) :
  let r := start_quiz st blocks subject chosen_topic chosen_grade g in
  snd r = SessionStarted -> in_type_order (quiz_questions (fst r)).
Proof.
  intros r Hs.
  destruct (start_quiz_started st blocks subject chosen_topic chosen_grade
              g Hs) as (selected & tg & g1 & _ & Hsel & Htg & Hq).
  unfold r. rewrite Hq, flatten_groups_eq.
  exists (groups_get (fst (shuffle_groups tg g1)) (VStr "multiple_choice")),
         (groups_get (fst (shuffle_groups tg g1)) (VStr "true_false")),
         (groups_get (fst (shuffle_groups tg g1)) (VStr "short_answer")),
         (groups_get (fst (shuffle_groups tg g1)) (VStr "fill_blank")),
         (groups_get (fst (shuffle_groups tg g1)) (VStr "unknown")).
  split; [ reflexivity | ].
  repeat split;
    eapply session_group_members; try exact Hsel; try exact Htg; reflexivity.
Qed.

Lemma stored_session_in_pool (st : session_state) (blocks : list block)
    (subject chosen_topic chosen_grade : value) (g : rng) (q : dict) :
  let pool := collect_questions_from_blocks blocks
                (unless_all chosen_topic) (unless_all chosen_grade) in
  let r := start_quiz st blocks subject chosen_topic chosen_grade g in
  snd r = SessionStarted -> In q (quiz_questions (fst r)) -> In q pool.
Proof.
  intros pool r Hs Hin.
  destruct (start_quiz_length_le st blocks subject chosen_topic chosen_grade
              g Hs) as (selected' & _ & Hperm).
  destruct (start_quiz_started st blocks subject chosen_topic chosen_grade
              g Hs) as (selected & tg & g1 & _ & Hsel & Htg & Hq).
  unfold r in Hin. rewrite Hq, flatten_groups_eq in Hin.
  assert (Hsome : exists t, In q (groups_get (fst (shuffle_groups tg g1))
                                             (VStr t))).
  { repeat (apply in_app_or in Hin as [ Hin | Hin ]; [ eauto | ]). eauto. }
  destruct Hsome as (t & Ht).
  apply (Permutation_in _ (shuffle_groups_get tg g1 (VStr t))) in Ht.
  rewrite (group_by_type_get selected tg t Htg) in Ht.
  apply filter_In in Ht as [Ht _]. rewrite Hsel in Ht.
  apply in_sample_loop in Ht. exact Ht.
Qed.

Lemma render_loop_total (version : Z) (questions : list dict) :
  Forall (fun q => exists t, question_type q = VStr t) questions ->
  Forall (fun q => choices_ok q = true) questions ->
  forall i cur, exists items,
    render_loop version i cur questions = Some items.
Proof.
  induction 1 as [ | q rest (t & Hq) Hrest IH ]; intros Hc i cur; simpl.
  - eauto.
  - apply Forall_cons_iff in Hc as [Hcq Hc].
    rewrite Hq. unfold header_for.
    assert (Hw : exists w, widget_for q (VStr t) i version = Some w).
    { unfold widget_for. unfold choices_ok in Hcq.
      destruct (py_eq (VStr t) (VStr "multiple_choice")).
      - destruct (radio_options _); [ eauto | discriminate ].
      - destruct (py_eq (VStr t) (VStr "true_false")); [ eauto | ].
        destruct (py_eq (VStr t) (VStr "short_answer")); [ eauto | ].
        destruct (py_eq (VStr t) (VStr "fill_blank")); eauto. }
    destruct Hw as (w & ->).
    destruct (negb (py_eq (VStr t) cur)).
    + destruct (IH Hc (S i) (VStr t)) as (items & ->). eauto.
    + destruct (IH Hc (S i) cur) as (items & ->). eauto.
Qed.

Lemma in_type_order_strings (l : list dict) :
  in_type_order l -> Forall (fun q => exists t, question_type q = VStr t) l.
Proof.
  intros (mc & tf & sa & fb & un & -> & Hmc & Htf & Hsa & Hfb & Hun).
  assert (G : forall t run,
             Forall (fun q => dict_get q "type" = VStr t) run ->
             Forall (fun q => exists t, question_type q = VStr t) run).
  { intros t run H. eapply Forall_impl; [ | exact H ].
    intros q Hq. exists t.
    unfold question_type, dict_get, dict_get_default in *.
    destruct (dict_lookup q "type"); [ exact Hq | discriminate ]. }
  repeat (apply Forall_app; split); eauto.
Qed.

(** The form of a session that Start Quiz has stored is built without an
    exception when the [choices] of the pool's questions are lists (or
    missing); it shows each type that occurs under one header, the headers
    in the fixed order of the types. *)
Theorem stored_session_renders (st : session_state) (blocks : list block)
    (subject chosen_topic chosen_grade : value) (g : rng) :
  let pool := collect_questions_from_blocks blocks
                (unless_all chosen_topic) (unless_all chosen_grade) in
  let r := start_quiz st blocks subject chosen_topic chosen_grade g in
  snd r = SessionStarted ->
  Forall (fun q => choices_ok q = true) pool ->
  exists items,
    render_quiz (fst r) = Some items
    /\ shown_headers items
       = filter (fun t => existsb (fun q => py_eq (question_type q) (VStr t))
                                  (quiz_questions (fst r)))
                type_order.
Proof.
  intros pool r Hs Hc.
  pose proof (stored_session_in_type_order st blocks subject chosen_topic
                chosen_grade g Hs) as Hord.
  fold r in Hord.
  assert (Hc' : Forall (fun q => choices_ok q = true)
                       (quiz_questions (fst r))).
  { rewrite Forall_forall in Hc |- *. intros q Hq. apply Hc.
    apply (stored_session_in_pool st blocks subject chosen_topic
             chosen_grade g q Hs Hq). }
  destruct (render_loop_total (version (fst r)) (quiz_questions (fst r))
              (in_type_order_strings _ Hord) Hc' 0 VNone) as (items & Hr).
  exists items. split; [ exact Hr | ].
  apply (grouped_list_headers (version (fst r)) _ items Hord Hr).
Qed.

Lemma widget_key_inj_witness :
  widget_key 3 1 <> widget_key 3 2 /\ widget_key 0 12 = "q0_v12".
Proof.
  split; [ | reflexivity ].
  apply (proj2 (widget_key_inj 3 3 1 2)). discriminate.
Defined.

Lemma render_quiz_widgets_witness :
  let st := fst (start_quiz initial_session example_blocks (VStr "English")
                            (VStr "All") (VStr "All") [3; 1; 4; 1; 5]) in
  exists items,
    render_quiz st = Some items
    /\ List.length items = List.length (quiz_questions st)
    /\ NoDup (map (fun it => widget_key_of (shown_widget it)) items).
Proof.
  intros st.
  destruct (render_quiz st) as [ items | ] eqn:E; [ | discriminate E ].
  exists items. split; [ reflexivity | ].
  destruct (render_quiz_widgets st items E) as (Hl & _ & _ & Hk).
  split; assumption.
Defined.

Lemma stored_session_renders_witness :
  let r := start_quiz initial_session example_blocks (VStr "English")
                      (VStr "All") (VStr "All") [3; 1; 4; 1; 5] in
  snd r = SessionStarted
  /\ exists items,
       render_quiz (fst r) = Some items
       /\ shown_headers items
          = filter (fun t => existsb (fun q => py_eq (question_type q) (VStr t))
                                     (quiz_questions (fst r)))
                   type_order.
Proof.
  intros r. split; [ reflexivity | ].
  apply (stored_session_renders initial_session example_blocks
           (VStr "English") (VStr "All") (VStr "All") [3; 1; 4; 1; 5]).
  - reflexivity.
  - vm_compute. repeat constructor.
Defined.

(** ** From the files to the graded form *)

Lemma catalog_lookup_hashable (c : catalog) (s : value) (bs : list block) :
  Forall (fun kv => hashable (fst kv) = true) c ->
  catalog_lookup c s = Some bs -> hashable s = true.
Proof.
  induction 1 as [ | [k l] c Hk Hc IH ]; simpl; [ discriminate | ].
  destruct (py_eq k s) eqn:E; [ | exact IH ].
  intros _. exact (py_eq_true_hashable k s E Hk).
Qed.

(** After a start of the script that found blocks, a session started in the
    tab of a subject holds that subject, and each of its questions is a valid
    question of a block of that subject in one of the files. *)
Theorem quiz_questions_come_from_subject (fs : string -> file_read) (a : app)
    (errs : list string) (subject : value) (blocks : list block)
    (chosen_topic chosen_grade : value) (g : rng) :
  start_script fs = StartupReady a errs ->
  catalog_lookup (subjects_data a) subject = Some blocks ->
  let r := start_quiz (session a) blocks subject chosen_topic chosen_grade g in
  snd r = SessionStarted ->
  quiz_subject (fst r) = subject
  /\ forall q, In q (quiz_questions (fst r)) ->
       exists b, In b (loaded_blocks fs subject_files)
                 /\ py_eq (block_subject b) subject = true
                 /\ In q (block_questions b)
                 /\ has_required_fields q = true.
Proof.
  unfold start_script.
  destruct (gather_subjects fs subject_files) as [ [ c | ] e ] eqn:E;
    [ | discriminate ].
  destruct (gather_loop_spec fs subject_files [] [] c e E catalog_ok_nil)
    as ((Hkeys & _) & _ & Hget & _).
  intros Ha Hlook Hs.
  set (r := start_quiz (session a) blocks subject chosen_topic chosen_grade g)
    in *.
  assert (Hc : subjects_data a = c).
  { destruct c; [ discriminate | ]. injection Ha as <- _. reflexivity. }
  rewrite Hc in Hlook.
  pose proof (catalog_lookup_hashable c subject blocks Hkeys Hlook) as Hh.
  specialize (Hget subject Hh). unfold catalog_get in Hget.
  rewrite Hlook in Hget. simpl in Hget.
  split.
  - destruct (start_quiz_cases (session a) blocks subject chosen_topic
                chosen_grade g) as [ [Hn _] | (_ & _ & Hsub & _) ].
    + fold r in Hn. contradiction.
    + exact Hsub.
  - intros q Hq.
    apply (stored_session_in_pool (session a) blocks subject chosen_topic
             chosen_grade g q Hs) in Hq.
    rewrite collect_questions_eq in Hq. unfold all_valid_questions in Hq.
    apply in_flat_map in Hq as (b & Hb & Hqb).
    apply filter_In in Hb as [Hb _]. apply filter_In in Hqb as [Hqb Hv].
    rewrite Hget in Hb. apply filter_In in Hb as [Hb Hsubj].
    exists b. auto.
Qed.

Lemma quiz_questions_come_from_subject_witness :
  let a := {| subjects_data := [(VStr "Math", algebra_blocks);
                                (VStr "English", english_blocks)];
              session := initial_session |} in
  let r := start_quiz (session a) english_blocks (VStr "English")
                      (VStr "Nouns") (VStr "All") [4; 2] in
  start_script example_fs = StartupReady a []
  /\ snd r = SessionStarted
  /\ quiz_subject (fst r) = VStr "English"
  /\ forall q, In q (quiz_questions (fst r)) ->
       exists b, In b (loaded_blocks example_fs subject_files)
                 /\ py_eq (block_subject b) (VStr "English") = true
                 /\ In q (block_questions b)
                 /\ has_required_fields q = true.
Proof.
  intros a r. split; [ reflexivity | ]. split; [ reflexivity | ].
  apply (quiz_questions_come_from_subject example_fs a [] (VStr "English")
           english_blocks (VStr "Nouns") (VStr "All") [4; 2]);
    reflexivity.
Defined.

Section FormGrading.

Variable container_str : value -> string.

(** Whatever the widgets return, submitting the form of the active quiz is
    graded without an exception: there is one submission per question, the
    mark of each question is that of its own widget's value, and the score
    counts the correct marks and is at most the number of questions. *)
Theorem submitted_form_is_graded (st : session_state)
    (items : list shown_question) (entered : string -> value) :
  render_quiz st = Some items ->
  exists marks score,
    grade container_str (quiz_questions st) (form_answers entered items)
    = Some (marks, score)
    /\ marks
       = map (fun iq => pass_mark container_str (snd iq)
                          (entered (widget_key (fst iq) (version st))))
             (combine (seq 0 (List.length (quiz_questions st)))
                      (quiz_questions st))
    /\ score = List.length (filter (fun m => m) marks)
    /\ score <= List.length (quiz_questions st).
Proof.
  unfold render_quiz. intros H.
  destruct (render_loop_items _ _ _ _ _ H) as (Hl & Hk & _).
  assert (Ha : form_answers entered items
               = map (fun n => entered (widget_key n (version st)))
                     (seq 0 (List.length (quiz_questions st)))).
  { unfold form_answers.
    rewrite <- (map_map (fun it => widget_key_of (shown_widget it)) entered).
    rewrite Hk, map_map. reflexivity. }
  unfold grade. rewrite grading_loop_total.
  2:{ rewrite Ha, length_map, length_seq. simpl. lia. }
  cbn [skipn]. eexists. eexists. split; [ reflexivity | ].
  rewrite Ha.
  assert (Hm : map (fun qu => pass_mark container_str (fst qu) (snd qu))
                   (combine (quiz_questions st)
                      (map (fun n => entered (widget_key n (version st)))
                           (seq 0 (List.length (quiz_questions st)))))
               = map (fun iq => pass_mark container_str (snd iq)
                                  (entered (widget_key (fst iq) (version st))))
                     (combine (seq 0 (List.length (quiz_questions st)))
                              (quiz_questions st))).
  { generalize 0. generalize (quiz_questions st) as qs.
    induction qs as [ | q qs IH ]; intros i; simpl; [ reflexivity | ].
    rewrite IH. reflexivity. }
  rewrite Hm. set (marks := map _ _).
  repeat split.
  pose proof (filter_length_le (fun m => m) marks) as Hle.
  assert (List.length marks = List.length (quiz_questions st)).
  { unfold marks. rewrite length_map, length_combine, length_seq. lia. }
  simpl. lia.
Qed.

End FormGrading.

Lemma submitted_form_is_graded_witness :
  let st := fst (start_quiz initial_session english_blocks (VStr "English")
                            (VStr "All") (VStr "All") [5; 8]) in
  exists items marks score,
    render_quiz st = Some items
    /\ grade no_repr (quiz_questions st)
             (form_answers (fun _ => VStr "Ran ") items)
       = Some (marks, score)
    /\ score <= List.length (quiz_questions st).
Proof.
  intros st.
  destruct (render_quiz st) as [ items | ] eqn:E; [ | discriminate E ].
  destruct (submitted_form_is_graded no_repr st items (fun _ => VStr "Ran ") E)
    as (marks & score & Hg & _ & _ & Hle).
  exists items, marks, score. auto.
Defined.
